(** * AI locator: selector resolution, cache store, credentials, model client

    A shallow embedding of [src/index.ts] (playwright-gemini-ai-locator) and
    the proofs of its specified properties.

    Conventions of the embedding.
    - An [async] function is a computation in the monad [M]: it takes the
      world, returns a result ([Ok v] for a resolved promise, [Throw msg] for
      [throw new Error(msg)] or a rejected [await]) and the world afterwards.
    - Everything outside the module (the identity backend, the model backend,
      the system clock, the disk, the browser page) is an oracle of the world
      or of the page object.  Oracles are indexed by the number of effects
      performed so far, so that the backend may answer differently at each
      attempt and the page may change while a resolution runs.
    - Every effect appends an [Event] to the world's trace; the trace is the
      observable behaviour ("the model backend was not invoked").
    - JavaScript strings are modelled as [string] (one byte per character),
      the numbers of the module ([retries], timestamps, durations, HTTP
      status) as [Z], so that an option holds an integer, and a number that
      may be [NaN] as [option Z].  [console] output is not modelled.
    - The selector cache, a JSON object used as a two-level dictionary, is a
      [gmap string (gmap string string)] of its own properties.  Its inner
      objects inherit the members of [Object.prototype]: a lookup finds
      them, and an assignment to [__proto__] runs the inherited setter.  A
      member, which is not a string, is represented by its string
      conversion.  The page URL, which contains a colon, is never the name
      of a member.
    - The cache file holds nothing, text that [JSON.parse] rejects, or a
      cache as [saveCache] writes it; a file edited by hand into JSON of
      another shape is outside the model.
    - The inline style of an element is read and assigned through the
      browser (CSSOM), which is an oracle of the page like the selector
      engine. *)

From Stdlib Require Import ZArith String Ascii List Bool Lia.
From stdpp Require Import base option gmap strings list.

Local Open Scope string_scope.
Local Open Scope Z_scope.

(** ** Results and errors *)

Inductive Res (A : Type) : Type :=
| Ok (value : A)
| Throw (message : string).
Arguments Ok {A} value.
Arguments Throw {A} message.

(** ** JavaScript string helpers used by the module *)

Module JS.

(** [WhiteSpace] and [LineTerminator] code points below 256. *)
Definition is_space (c : ascii) : bool :=
  let n := nat_of_ascii c in
  (Nat.eqb n 9 || Nat.eqb n 10 || Nat.eqb n 11 || Nat.eqb n 12
   || Nat.eqb n 13 || Nat.eqb n 32 || Nat.eqb n 160)%bool.

Fixpoint trimStart (s : string) : string :=
  match s with
  | String c rest => if is_space c then trimStart rest else s
  | EmptyString => s
  end.

Definition reverse (s : string) : string :=
  string_of_list_ascii (List.rev (list_ascii_of_string s)).

(** [String.prototype.trim]. *)
Definition trim (s : string) : string :=
  reverse (trimStart (reverse (trimStart s))).

(** Value of a digit in the given radix, as [parseInt] reads it. *)
Definition digit_value (radix : Z) (c : ascii) : option Z :=
  let n := Z.of_nat (nat_of_ascii c) in
  let v := if (48 <=? n) && (n <=? 57) then Some (n - 48)
           else if (97 <=? n) && (n <=? 122) then Some (n - 87)
           else if (65 <=? n) && (n <=? 90) then Some (n - 55)
           else None in
  match v with
  | Some d => if d <? radix then Some d else None
  | None => None
  end.

(** The longest prefix of digits; [None] when there is no digit. *)
Fixpoint digits (radix : Z) (acc : option Z) (s : string) : option Z :=
  match s with
  | String c rest =>
      match digit_value radix c with
      | Some d =>
          digits radix
            (Some (match acc with Some a => a * radix + d | None => d end)) rest
      | None => acc
      end
  | EmptyString => acc
  end.

(** [parseInt(s)] with no radix argument; [None] is [NaN].  The result is
    exact (a double loses precision above 2^53). *)
Definition parseInt (s : string) : option Z :=
  let s1 := trimStart s in
  let '(sign, s2) :=
    match s1 with
    | String "-" rest => (-1, rest)
    | String "+" rest => (1, rest)
    | _ => (1, s1)
    end in
  let '(radix, s3) :=
    match s2 with
    | String "0" (String "x" rest) => (16, rest)
    | String "0" (String "X" rest) => (16, rest)
    | _ => (10, s2)
    end in
  option_map (Z.mul sign) (digits radix None s3).

(** Truthiness of a string that may be [undefined]. *)
Definition truthy (s : option string) : bool :=
  match s with
  | Some v => negb (String.eqb v "")
  | None => false
  end.

(** Truthiness of a number that may be [undefined]. *)
Definition truthy_num (n : option Z) : bool :=
  match n with
  | Some v => negb (v =? 0)
  | None => false
  end.

(** A template literal prints [undefined] for a missing value. *)
Definition interpolate (s : option string) : string :=
  match s with
  | Some v => v
  | None => "undefined"
  end.

End JS.

(** ** Data model *)

(** [interface TokenCache]. *)
Record TokenCache : Type := mkTokenCache {
  token : string;
  timestamp : Z
}.

(** [interface AILocatorOptions]; every field is optional. *)
Record AILocatorOptions : Type := mkOptions {
  timeout : option Z;
  retries : option Z;
  highlightDuration : option Z
}.

(** The same options with another [timeout]. *)
Definition with_timeout (t : option Z) (options : AILocatorOptions) : AILocatorOptions :=
  mkOptions t (retries options) (highlightDuration options).

(** What the persisted document is to [JSON.parse]: text that it rejects, or
    the text [JSON.stringify(c, null, 2)] of a cache [c], which it reads back
    as [c]. *)
Inductive Document : Type :=
| Unparseable (text : string)
| CacheDocument (c : gmap string (gmap string string)).

(** State of the file at [CACHE_FILE_PATH]. *)
Inductive FileState : Type :=
| FileAbsent
| FileUnreadable
| FileHolds (doc : Document).

(** The request built by [queryGeminiAPI]. *)
Record Request : Type := mkRequest {
  req_url : string;
  req_authorization : option string;
  req_prompt : string
}.

(** The part of a [fetch] response the module reads.  [res_text] is the
    outcome of [(await response.json()).candidates[0].content.parts[0].text]:
    it throws on a malformed body. *)
Record Response : Type := mkResponse {
  res_status : Z;
  res_statusText : string;
  res_retryAfter : option string;
  res_text : Res string
}.

(** One declaration of a [style] attribute. *)
Record Declaration : Type := mkDeclaration {
  decl_property : string;
  decl_value : string;
  decl_important : bool
}.

(** The inline style of an element: the declarations of its [style]
    attribute, [None] for an element without the attribute. *)
Definition Style : Type := option (list Declaration).

(** An element: its tag with the attributes other than [style], and its
    inline style. *)
Record Element : Type := mkElement {
  markup : string;
  style : Style
}.

Inductive Event : Type :=
| EvAcquireToken
| EvFetch (req : Request)
| EvWait (ms : option Z)
| EvPageContent
| EvPageQuery (selector : string) (outcome : Res bool)
| EvWriteFile (c : gmap string (gmap string string))
| EvPageTimer (ms : Z)
| EvStyle (i : nat) (name value : string).

(** What is left of the file when [fs.writeFile] rejects: the file as it
    was (the file could not be opened for writing), a part of the text (the
    file was opened, hence truncated, and the write failed), or the whole
    text (the failure came after the last byte). *)
Inductive Damage : Type :=
| Untouched
| Partial (text : string)
| Complete.

(** What [fs.writeFile] does. *)
Inductive WriteOutcome : Type :=
| Written
| Rejected (message : string) (damage : Damage).

(** The world: process state ([tokenCache], the environment variables), the
    disk, the document of the page, the oracles and the trace. *)
Record World : Type := mkWorld {
  GOOGLE_CLOUD_PROJECT_ID : option string;
  GOOGLE_CLOUD_REGION : option string;
  GOOGLE_CLOUD_VERTEX_AI_MODEL : option string;
  GOOGLE_CLOUD_VERTEX_AI_API_KEY : option string;
  tokenCache : option TokenCache;
  cache_file : FileState;
  document : list Element;
  Date_now : nat -> Z;
  auth_getAccessToken : nat -> Res string;
  fetch_backend : nat -> Request -> Res Response;
  fs_writeFile : nat -> WriteOutcome;
  trace : list Event
}.

(** The Playwright page.  [page_dollar] is [page.$(selector) !== null]; it
    throws on a selector the engine cannot parse or that is not a string
    (at the string conversion of such a value).  [css_matches] is the
    browser's own selector matching, [None] for a selector that
    [document.querySelector] rejects.  [style_get s name] is what
    [element.style[name]] reads on an element of inline style [s], and
    [style_set name v s] is the inline style after
    [element.style[name] = v]. *)
Record Page : Type := mkPage {
  page_url : string;
  page_content : nat -> Res string;
  page_dollar : nat -> string -> Res bool;
  css_matches : string -> option (Element -> bool);
  style_get : Style -> string -> string;
  style_set : string -> string -> Style -> Style
}.

Definition set_tokenCache (tc : option TokenCache) (w : World) : World :=
  mkWorld (GOOGLE_CLOUD_PROJECT_ID w) (GOOGLE_CLOUD_REGION w)
    (GOOGLE_CLOUD_VERTEX_AI_MODEL w) (GOOGLE_CLOUD_VERTEX_AI_API_KEY w)
    tc (cache_file w) (document w) (Date_now w) (auth_getAccessToken w)
    (fetch_backend w) (fs_writeFile w) (trace w).

Definition set_cache_file (f : FileState) (w : World) : World :=
  mkWorld (GOOGLE_CLOUD_PROJECT_ID w) (GOOGLE_CLOUD_REGION w)
    (GOOGLE_CLOUD_VERTEX_AI_MODEL w) (GOOGLE_CLOUD_VERTEX_AI_API_KEY w)
    (tokenCache w) f (document w) (Date_now w) (auth_getAccessToken w)
    (fetch_backend w) (fs_writeFile w) (trace w).

Definition set_document (d : list Element) (w : World) : World :=
  mkWorld (GOOGLE_CLOUD_PROJECT_ID w) (GOOGLE_CLOUD_REGION w)
    (GOOGLE_CLOUD_VERTEX_AI_MODEL w) (GOOGLE_CLOUD_VERTEX_AI_API_KEY w)
    (tokenCache w) (cache_file w) d (Date_now w) (auth_getAccessToken w)
    (fetch_backend w) (fs_writeFile w) (trace w).

Definition record (e : Event) (w : World) : World :=
  mkWorld (GOOGLE_CLOUD_PROJECT_ID w) (GOOGLE_CLOUD_REGION w)
    (GOOGLE_CLOUD_VERTEX_AI_MODEL w) (GOOGLE_CLOUD_VERTEX_AI_API_KEY w)
    (tokenCache w) (cache_file w) (document w) (Date_now w)
    (auth_getAccessToken w) (fetch_backend w) (fs_writeFile w)
    (e :: trace w).

(** The index at which the oracles are asked next. *)
Definition tick (w : World) : nat := List.length (trace w).

(** ** The monad of asynchronous computations *)

Definition M (A : Type) : Type := World -> Res A * World.

Definition ret {A} (a : A) : M A := fun w => (Ok a, w).

Definition throw {A} (msg : string) : M A := fun w => (Throw msg, w).

Definition bind {A B} (m : M A) (k : A -> M B) : M B :=
  fun w =>
    match m w with
    | (Ok a, w') => k a w'
    | (Throw msg, w') => (Throw msg, w')
    end.

(** [try { ... } catch (error) { ... }]. *)
Definition try_catch {A} (m : M A) (handler : string -> M A) : M A :=
  fun w =>
    match m w with
    | (Ok a, w') => (Ok a, w')
    | (Throw msg, w') => handler msg w'
    end.

Notation "'await' x <- m ; k" := (bind m (fun x => k))
  (at level 10, x name, m at level 100, k at level 200).
Notation "'perform' m ; k" := (bind m (fun _ => k))
  (at level 10, m at level 100, k at level 200).

(** ** Cache Store *)

(** [loadCache]: [fs.readFile] rejects on an absent or unreadable file and
    [JSON.parse] throws on text it cannot parse; the [catch] turns each into
    the empty object. *)
Definition loadCache : M (gmap string (gmap string string)) :=
  fun w =>
    match cache_file w with
    | FileHolds (CacheDocument c) => (Ok c, w)
    | FileHolds (Unparseable _) => (Ok ∅, w)
    | FileAbsent => (Ok ∅, w)
    | FileUnreadable => (Ok ∅, w)
    end.

(** The file after text was written to it.  Writing does not change who
    may read the file: a file that could not be read still cannot. *)
Definition overwritten (doc : Document) (before : FileState) : FileState :=
  match before with
  | FileUnreadable => FileUnreadable
  | _ => FileHolds doc
  end.

(** The file after a write of [cache] that was rejected.  A part of the
    text of an object is text that [JSON.parse] rejects. *)
Definition damaged (cache : gmap string (gmap string string)) (damage : Damage)
    (before : FileState) : FileState :=
  match damage with
  | Untouched => before
  | Partial text => overwritten (Unparseable text) before
  | Complete => overwritten (CacheDocument cache) before
  end.

(** [saveCache]: [fs.writeFile] of the serialised cache.  The write is not
    atomic: when it rejects, the file may be left as it was, cut short, or
    complete. *)
Definition saveCache (cache : gmap string (gmap string string)) : M unit :=
  fun w =>
    match fs_writeFile w (tick w) with
    | Written =>
        (Ok tt, record (EvWriteFile cache)
                  (set_cache_file (overwritten (CacheDocument cache) (cache_file w)) w))
    | Rejected msg damage =>
        (Throw msg, record (EvWriteFile cache)
                      (set_cache_file (damaged cache damage (cache_file w)) w))
    end.

(** [wait(ms)]. *)
Definition wait (ms : option Z) : M unit :=
  fun w => (Ok tt, record (EvWait ms) w).

(** ** Credential Provider *)

Definition token_lifetime : Z := 59 * 60 * 1000.

(** [auth.getAccessToken()] of the identity backend. *)
Definition acquire_token : M string :=
  fun w => (auth_getAccessToken w (tick w), record EvAcquireToken w).

(** The refreshing branch of [getValidAccessToken]. *)
Definition refresh_token (currentTime : Z) : M string :=
  await newToken <- acquire_token;
  fun w => (Ok newToken,
            set_tokenCache (Some (mkTokenCache newToken currentTime)) w).

(** [getValidAccessToken]. *)
Definition getValidAccessToken : M string :=
  fun w =>
    let currentTime := Date_now w (tick w) in
    match tokenCache w with
    | None => refresh_token currentTime w
    | Some tc =>
        if currentTime - timestamp tc >? token_lifetime
        then refresh_token currentTime w
        else (Ok (token tc), w)
    end.

(** ** Model Client *)

Definition key_endpoint (model apiKey : option string) : string :=
  "https://generativelanguage.googleapis.com/v1beta/models/"
  ++ JS.interpolate model ++ ":generateContent?key=" ++ JS.interpolate apiKey.

Definition token_endpoint (location projectId model : option string) : string :=
  "https://" ++ JS.interpolate location
  ++ "-aiplatform.googleapis.com/v1/projects/" ++ JS.interpolate projectId
  ++ "/locations/" ++ JS.interpolate location
  ++ "/publishers/google/models/" ++ JS.interpolate model ++ ":generateContent".

(** Lines 69-86 of [queryGeminiAPI]: the endpoint and the headers. *)
Definition select_endpoint (prompt : string) : M Request :=
  fun w =>
    let projectId := GOOGLE_CLOUD_PROJECT_ID w in
    let location := GOOGLE_CLOUD_REGION w in
    let model := GOOGLE_CLOUD_VERTEX_AI_MODEL w in
    let apiKey := GOOGLE_CLOUD_VERTEX_AI_API_KEY w in
    (if JS.truthy apiKey
     then ret (mkRequest (key_endpoint model apiKey) None prompt)
     else
       await accessToken <- getValidAccessToken;
       ret (mkRequest (token_endpoint location projectId model)
              (Some ("Bearer " ++ accessToken)) prompt)) w.

(** [fetch(url, ...)]; it rejects on a network failure. *)
Definition fetch (req : Request) : M Response :=
  fun w => (fetch_backend w (tick w) req, record (EvFetch req) w).

(** [response.ok]. *)
Definition res_ok (r : Response) : bool :=
  (200 <=? res_status r) && (res_status r <=? 299).

(** The delay computed on a rate-limited response. *)
Definition retry_delay (r : Response) : option Z :=
  let header := if JS.truthy (res_retryAfter r)
                then JS.interpolate (res_retryAfter r) else "30" in
  option_map (fun seconds => seconds * 1000) (JS.parseInt header).

Definition rate_limit_message : string :=
  "Gemini API request failed due to rate limiting.".

(** Lines 96-110 of [queryGeminiAPI]: what is made of the response. *)
Definition read_response (response : Response) : M string :=
  if res_status response =? 429 then
    perform wait (retry_delay response);
    throw rate_limit_message
  else if negb (res_ok response) then
    throw ("Gemini API request failed: " ++ res_statusText response)
  else
    match res_text response with
    | Ok text => ret (JS.trim text)
    | Throw msg => throw msg
    end.

(** [queryGeminiAPI]. *)
Definition queryGeminiAPI (prompt : string) : M string :=
  await req <- select_endpoint prompt;
  await response <- fetch req;
  read_response response.

(** [getCurrentAPIEndpoint]. *)
Definition getCurrentAPIEndpoint (w : World) : string :=
  if JS.truthy (GOOGLE_CLOUD_VERTEX_AI_API_KEY w)
  then "API key based endpoint (generativelanguage.googleapis.com)"
  else "Access token based endpoint (aiplatform.googleapis.com)".

(** ** Selector Resolver *)

Definition newline : string := String (ascii_of_nat 10) EmptyString.
Definition dquote : string := String (ascii_of_nat 34) EmptyString.

Definition build_prompt (description html : string) : string :=
  "Given the following description of an element on a web page and the page HTML, provide a CSS selector"
  ++ " that would likely match this element. The selector should be as specific as possible while still being likely to"
  ++ " being likely to match the described element. If you cannot determine a suitable selector, respond with "
  ++ dquote ++ "ERROR:"
  ++ " Unable to determine selector" ++ dquote
  ++ " followed by a brief explanation. Only return the selector or the error message, no other text.:"
  ++ "Description: " ++ description ++ newline
  ++ "Page HTML: " ++ html.

Definition exhausted_message (description : string) : string :=
  "Failed to generate a valid selector for description: " ++ description.

(** [await page.content()]. *)
Definition content (page : Page) : M string :=
  fun w => (page_content page (tick w), record EvPageContent w).

(** [await page.$(selector) !== null]. *)
Definition element_exists (page : Page) (selector : string) : M bool :=
  fun w =>
    let outcome := page_dollar page (tick w) selector in
    (outcome, record (EvPageQuery selector outcome) w).

(** The names of the members of [Object.prototype]. *)
Definition Object_prototype : list string :=
  [ "constructor"; "__defineGetter__"; "__defineSetter__"; "hasOwnProperty";
    "__lookupGetter__"; "__lookupSetter__"; "isPrototypeOf";
    "propertyIsEnumerable"; "toString"; "valueOf"; "__proto__";
    "toLocaleString" ].

(** What [obj[name]] gives on an object without an own property [name]:
    [undefined], or the member of [Object.prototype] of that name.  The
    member is a function, or for [__proto__] the prototype itself; it is
    represented by its string conversion. *)
Definition inherited (name : string) : option string :=
  if String.eqb name "__proto__" then Some "[object Object]"
  else if String.eqb name "constructor" then Some "function Object() { [native code] }"
  else if existsb (String.eqb name) Object_prototype
  then Some ("function " ++ name ++ "() { [native code] }")
  else None.

(** The selector that the cache itself holds for the pair: the own property
    [description] of the own property [pageUrl]. *)
Definition own_selector (cache : gmap string (gmap string string))
    (pageUrl description : string) : option string :=
  match cache !! pageUrl with
  | Some entries => entries !! description
  | None => None
  end.

(** [cache[pageUrl]?.[description]]: the own property, or else what the
    inner object inherits. *)
Definition cached_selector (cache : gmap string (gmap string string))
    (pageUrl description : string) : option string :=
  match cache !! pageUrl with
  | Some entries =>
      match entries !! description with
      | Some selector => Some selector
      | None => inherited description
      end
  | None => None
  end.

(** Whether [cache[pageUrl]?.[description]] is an inherited member, hence
    not a string. *)
Definition from_prototype (cache : gmap string (gmap string string))
    (pageUrl description : string) : bool :=
  match cache !! pageUrl with
  | Some entries =>
      match entries !! description, inherited description with
      | None, Some _ => true
      | _, _ => false
      end
  | None => false
  end.

(** [entries[description] = selector] with a string [selector].  The
    assignment sets or creates the own property, except for [__proto__] on
    an object without that own property: there it runs the setter of
    [Object.prototype], which ignores a string. *)
Definition assign_entry (entries : gmap string string)
    (description selector : string) : gmap string string :=
  match entries !! description with
  | None =>
      if String.eqb description "__proto__" then entries
      else <[description := selector]> entries
  | Some _ => <[description := selector]> entries
  end.

(** [if (!cache[pageUrl]) cache[pageUrl] = {}; cache[pageUrl][description] = selector]. *)
Definition cache_put (cache : gmap string (gmap string string))
    (pageUrl description selector : string) : gmap string (gmap string string) :=
  let entries := match cache !! pageUrl with
                 | Some entries => entries
                 | None => ∅
                 end in
  <[pageUrl := assign_entry entries description selector]> cache.

(** How one iteration of the [while] loop ends: [return selector], or
    [retries++] (reached at the end of the body or through [continue]). *)
Inductive Step : Type :=
| Return (selector : string)
| NextAttempt.

(** The [else] branch of the loop body, lines 128-151: the candidate the
    model gives, [None] where the source does [retries++; continue]. *)
Definition ask_model (page : Page) (description : string) : M (option string) :=
  await html <- content page;
  let prompt := build_prompt description html in
  try_catch
    (await response <- queryGeminiAPI prompt;
     if String.prefix "ERROR:" response
     then ret None
     else ret (Some response))
    (fun _ => ret None).

(** The cache that is saved after [selector] was found on the page.  When
    the candidate is an inherited member ([member]), the assignment of line
    161 stores a function, which [JSON.stringify] leaves out, or sets the
    prototype to what it is: the text written is that of the cache as it
    was loaded. *)
Definition cache_to_save (page : Page) (description : string)
    (cache : gmap string (gmap string string)) (member : bool) (selector : string) :
    gmap string (gmap string string) :=
  if member then cache
  else cache_put cache (page_url page) description selector.

(** Lines 154-167: validation of the candidate and the write to the cache.
    [member] tells that the candidate is an inherited member, taken for a
    cached selector. *)
Definition validate (page : Page) (description : string)
    (cache : gmap string (gmap string string)) (member : bool) (selector : string) :
    M Step :=
  if JS.truthy (Some selector) then
    await elementExists <- element_exists page selector;
    if elementExists : bool then
      let cache' := cache_to_save page description cache member selector in
      perform saveCache cache';
      ret (Return selector)
    else ret NextAttempt
  else ret NextAttempt.

(** Lines 121-152: the candidate of this iteration, from the cache on the
    first iteration and from the model otherwise. *)
Definition candidate (page : Page) (description : string)
    (cache : gmap string (gmap string string)) (retries : Z) : M (option string) :=
  if JS.truthy (cached_selector cache (page_url page) description)
     && (retries =? 0)
  then ret (cached_selector cache (page_url page) description)
  else ask_model page description.

(** Whether the candidate of this iteration is an inherited member. *)
Definition member_candidate (page : Page) (description : string)
    (cache : gmap string (gmap string string)) (retries : Z) : bool :=
  from_prototype cache (page_url page) description && (retries =? 0).

(** The body of the [while] loop. *)
Definition attempt (page : Page) (description : string)
    (cache : gmap string (gmap string string)) (retries : Z) : M Step :=
  await found <- candidate page description cache retries;
  match found with
  | Some selector =>
      validate page description cache
        (member_candidate page description cache retries) selector
  | None => ret NextAttempt
  end.

(** [while (retries < maxRetries) { ... } throw ...], with
    [remaining = maxRetries - retries] iterations left. *)
Fixpoint attempts (remaining : nat) (page : Page) (description : string)
    (cache : gmap string (gmap string string)) (retries : Z) : M string :=
  match remaining with
  | O => throw (exhausted_message description)
  | S remaining' =>
      await step <- attempt page description cache retries;
      match step with
      | Return selector => ret selector
      | NextAttempt => attempts remaining' page description cache (retries + 1)
      end
  end.

(** [options?.retries || 3]. *)
Definition maxRetries (options : AILocatorOptions) : Z :=
  match retries options with
  | Some n => if JS.truthy_num (Some n) then n else 3
  | None => 3
  end.

(** [getAiSelector]. *)
Definition getAiSelector (page : Page) (description : string)
    (options : AILocatorOptions) : M string :=
  await cache <- loadCache;
  attempts (Z.to_nat (maxRetries options)) page description cache 0.

(** The world after [selector] was found on the page and the cache was
    saved. *)
Definition validated_and_saved (page : Page) (description : string)
    (cache : gmap string (gmap string string)) (member : bool) (selector : string)
    (w : World) : World :=
  let cache' := cache_to_save page description cache member selector in
  record (EvWriteFile cache')
    (set_cache_file (overwritten (CacheDocument cache') (cache_file w))
       (record (EvPageQuery selector (Ok true)) w)).

(** The world after [selector] was found on the page and the write of the
    cache was rejected. *)
Definition validated_and_rejected (page : Page) (description : string)
    (cache : gmap string (gmap string string)) (member : bool) (selector : string)
    (damage : Damage) (w : World) : World :=
  let cache' := cache_to_save page description cache member selector in
  record (EvWriteFile cache')
    (set_cache_file (damaged cache' damage (cache_file w))
       (record (EvPageQuery selector (Ok true)) w)).

(** [failed_attempts n retries w w']: from [w], with the counter at
    [retries], [n] iterations in a row end in [retries++] and leave the
    world [w']. *)
Inductive failed_attempts (page : Page) (description : string)
    (cache : gmap string (gmap string string)) : nat -> Z -> World -> World -> Prop :=
| failed_none (retries : Z) (w : World) :
    failed_attempts page description cache 0 retries w w
| failed_again (n : nat) (retries : Z) (w w1 w2 : World) :
    attempt page description cache retries w = (Ok NextAttempt, w1) ->
    failed_attempts page description cache n (retries + 1) w1 w2 ->
    failed_attempts page description cache (S n) retries w w2.

(** [page_rejects page msg w]: [w] is the world just after [page.content()]
    or [page.$()], both awaited outside the [try] block, rejected with
    [msg]. *)
Inductive page_rejects (page : Page) (msg : string) : World -> Prop :=
| rejects_content (w : World) :
    page_content page (tick w) = Throw msg ->
    page_rejects page msg (record EvPageContent w)
| rejects_query (w : World) (selector : string) :
    page_dollar page (tick w) selector = Throw msg ->
    page_rejects page msg (record (EvPageQuery selector (Throw msg)) w).

(** The ways [validate] can end. *)
Inductive validate_outcome (page : Page) (description : string)
    (cache : gmap string (gmap string string)) (member : bool) (selector : string)
    (w : World) : Res Step * World -> Prop :=
| validate_found :
    selector <> "" ->
    page_dollar page (tick w) selector = Ok true ->
    fs_writeFile w (S (tick w)) = Written ->
    validate_outcome page description cache member selector w
      (Ok (Return selector),
       validated_and_saved page description cache member selector w)
| validate_retry (w' : World) :
    cache_file w' = cache_file w ->
    (selector = "" /\ w' = w \/
     page_dollar page (tick w) selector = Ok false /\
     w' = record (EvPageQuery selector (Ok false)) w) ->
    validate_outcome page description cache member selector w (Ok NextAttempt, w')
| validate_page_rejects (msg : string) (w' : World) :
    cache_file w' = cache_file w ->
    page_rejects page msg w' ->
    validate_outcome page description cache member selector w (Throw msg, w')
| validate_write_rejected (msg : string) (damage : Damage) :
    selector <> "" ->
    page_dollar page (tick w) selector = Ok true ->
    fs_writeFile w (S (tick w)) = Rejected msg damage ->
    validate_outcome page description cache member selector w
      (Throw msg,
       validated_and_rejected page description cache member selector damage w).

(** The ways one iteration can end. *)
Inductive attempt_outcome (page : Page) (description : string)
    (cache : gmap string (gmap string string)) (retries : Z) (w : World) :
    Res Step * World -> Prop :=
| attempt_success (selector : string) (w1 : World) :
    candidate page description cache retries w = (Ok (Some selector), w1) ->
    selector <> "" ->
    page_dollar page (tick w1) selector = Ok true ->
    fs_writeFile w1 (S (tick w1)) = Written ->
    attempt_outcome page description cache retries w
      (Ok (Return selector),
       validated_and_saved page description cache
         (member_candidate page description cache retries) selector w1)
| attempt_retry (w' : World) :
    cache_file w' = cache_file w ->
    attempt_outcome page description cache retries w (Ok NextAttempt, w')
| attempt_page_rejects (msg : string) (w' : World) :
    cache_file w' = cache_file w ->
    page_rejects page msg w' ->
    attempt_outcome page description cache retries w (Throw msg, w')
| attempt_write_rejected (msg : string) (damage : Damage) (selector : string)
    (w1 : World) :
    candidate page description cache retries w = (Ok (Some selector), w1) ->
    selector <> "" ->
    page_dollar page (tick w1) selector = Ok true ->
    fs_writeFile w1 (S (tick w1)) = Rejected msg damage ->
    attempt_outcome page description cache retries w
      (Throw msg,
       validated_and_rejected page description cache
         (member_candidate page description cache retries) selector damage w1).

(** The ways the loop can end when it starts with [n] iterations left and
    the counter at [retries]: a validated selector after some failed
    iterations, the descriptive error after [n] failed iterations, a
    rejection of the page, or a rejection of the cache write. *)
Inductive resolution_outcome (page : Page) (description : string)
    (cache : gmap string (gmap string string)) (n : nat) (retries : Z) (w : World) :
    Res string * World -> Prop :=
| resolved (k : nat) (selector : string) (w1 w2 : World) :
    (k < n)%nat ->
    failed_attempts page description cache k retries w w1 ->
    candidate page description cache (retries + Z.of_nat k) w1 = (Ok (Some selector), w2) ->
    selector <> "" ->
    page_dollar page (tick w2) selector = Ok true ->
    fs_writeFile w2 (S (tick w2)) = Written ->
    resolution_outcome page description cache n retries w
      (Ok selector,
       validated_and_saved page description cache
         (member_candidate page description cache (retries + Z.of_nat k)) selector w2)
| exhausted (w' : World) :
    failed_attempts page description cache n retries w w' ->
    resolution_outcome page description cache n retries w
      (Throw (exhausted_message description), w')
| aborted_by_page (k : nat) (msg : string) (w1 w' : World) :
    (k < n)%nat ->
    failed_attempts page description cache k retries w w1 ->
    attempt page description cache (retries + Z.of_nat k) w1 = (Throw msg, w') ->
    cache_file w' = cache_file w1 ->
    page_rejects page msg w' ->
    resolution_outcome page description cache n retries w (Throw msg, w')
| aborted_by_write (k : nat) (msg : string) (damage : Damage) (selector : string)
    (w1 w2 : World) :
    (k < n)%nat ->
    failed_attempts page description cache k retries w w1 ->
    candidate page description cache (retries + Z.of_nat k) w1 = (Ok (Some selector), w2) ->
    selector <> "" ->
    page_dollar page (tick w2) selector = Ok true ->
    fs_writeFile w2 (S (tick w2)) = Rejected msg damage ->
    resolution_outcome page description cache n retries w
      (Throw msg,
       validated_and_rejected page description cache
         (member_candidate page description cache (retries + Z.of_nat k))
         selector damage w2).

(** The cache that [loadCache] gives in world [w]. *)
Definition stored_cache (w : World) : gmap string (gmap string string) :=
  match cache_file w with
  | FileHolds (CacheDocument c) => c
  | _ => ∅
  end.

(** ** Page Capability Extension *)

(** A locator is a handle bound to a selector. *)
Record Locator : Type := mkLocator { locator_selector : string }.

(** [aiLocator]. *)
Definition aiLocator (page : Page) (description : string)
    (options : AILocatorOptions) : M Locator :=
  await selector <- getAiSelector page description options;
  ret (mkLocator selector).

(** [document.querySelector(sel)]: the first matching element, with its
    position in the document. *)
Definition querySelector (page : Page) (sel : string) : M (option (nat * Element)) :=
  fun w =>
    match css_matches page sel with
    | Some matches => (Ok (list_find (fun e => Is_true (matches e)) (document w)), w)
    | None => (Throw ("SyntaxError: '" ++ sel ++ "' is not a valid selector"), w)
    end.

(** The element after [element.style[name] = v]. *)
Definition assigned (page : Page) (name v : string) (e : Element) : Element :=
  mkElement (markup e) (style_set page name v (style e)).

(** [element.style[name] = v] on the element at position [i]. *)
Definition assign_style (page : Page) (i : nat) (name v : string) : M unit :=
  fun w =>
    (Ok tt,
     record (EvStyle i name v)
       (set_document (alter (assigned page name v) i (document w)) w)).

(** [setTimeout(callback, dur)] in the page: the callback runs after the
    timer fires. *)
Definition setTimeout (dur : Z) : M unit :=
  fun w => (Ok tt, record (EvPageTimer dur) w).

(** The first half of the page script: the styles are read and replaced. *)
Definition apply_highlight (page : Page) (i : nat) (element : Element) :
    M (string * string) :=
  let originalOutline := style_get page (style element) "outline" in
  let originalZIndex := style_get page (style element) "zIndex" in
  perform assign_style page i "outline" "3px solid red";
  perform assign_style page i "zIndex" "10000";
  ret (originalOutline, originalZIndex).

(** The timer callback: the values that were read are assigned. *)
Definition restore_highlight (page : Page) (i : nat) (saved : string * string) :
    M unit :=
  perform assign_style page i "outline" (fst saved);
  assign_style page i "zIndex" (snd saved).

(** The function passed to [page.evaluate], lines 196-213. *)
Definition highlight_script (page : Page) (sel : string) (dur : Z) : M unit :=
  await found <- querySelector page sel;
  match found with
  | Some (i, element) =>
      await saved <- apply_highlight page i element;
      perform setTimeout dur;
      restore_highlight page i saved
  | None => ret tt
  end.

(** The inline style of the element while it is highlighted. *)
Definition highlighted_style (page : Page) (s : Style) : Style :=
  style_set page "zIndex" "10000" (style_set page "outline" "3px solid red" s).

(** The inline style of the element after the timer callback. *)
Definition restored_style (page : Page) (s : Style) : Style :=
  style_set page "zIndex" (style_get page s "zIndex")
    (style_set page "outline" (style_get page s "outline")
       (highlighted_style page s)).

(** [options?.highlightDuration || 3000]. *)
Definition highlight_duration (options : AILocatorOptions) : Z :=
  match highlightDuration options with
  | Some d => if JS.truthy_num (Some d) then d else 3000
  | None => 3000
  end.

(** [highlightAILocator]. *)
Definition highlightAILocator (page : Page) (description : string)
    (options : AILocatorOptions) : M unit :=
  await selector <- getAiSelector page description options;
  highlight_script page selector (highlight_duration options).

(** ** A browser for the worked examples *)

(** The part of the CSSOM that the worked examples need: the longhand
    [z-index] and the shorthand [outline] of [outline-width],
    [outline-style] and [outline-color], for shorthand values of the form
    [width style color]. *)
Module Cssom.

Definition outline_longhands : list string :=
  ["outline-width"; "outline-style"; "outline-color"].

Definition declared (name : string) (decls : list Declaration) : option Declaration :=
  List.find (fun d => String.eqb (decl_property d) name) decls.

Definition remove (names : list string) (decls : list Declaration) : list Declaration :=
  List.filter (fun d => negb (existsb (String.eqb (decl_property d)) names)) decls.

(** Set a declaration: in place when the property is declared, at the end
    otherwise.  An assignment through [element.style] clears the
    priority. *)
Fixpoint put (name v : string) (decls : list Declaration) : list Declaration :=
  match decls with
  | d :: rest =>
      if String.eqb (decl_property d) name
      then mkDeclaration name v false :: rest
      else d :: put name v rest
  | [] => [mkDeclaration name v false]
  end.

Fixpoint words (s word : string) : list string :=
  match s with
  | String c rest =>
      if Ascii.eqb c " " then word :: words rest ""
      else words rest (word ++ String c "")
  | EmptyString => [word]
  end.

(** Width, style and color of a shorthand value. *)
Definition parse_outline (v : string) : option (string * string * string) :=
  match words v "" with
  | [width; style; color] => Some (width, style, color)
  | _ => None
  end.

(** [element.style.zIndex] and [element.style.outline].  A shorthand reads
    as the empty string unless all its longhands are declared with one
    priority. *)
Definition read (s : Style) (name : string) : string :=
  match s with
  | None => ""
  | Some decls =>
      if String.eqb name "zIndex" then
        match declared "z-index" decls with
        | Some d => decl_value d
        | None => ""
        end
      else if String.eqb name "outline" then
        match declared "outline-width" decls, declared "outline-style" decls,
              declared "outline-color" decls with
        | Some width, Some style, Some color =>
            if Bool.eqb (decl_important width) (decl_important style)
               && Bool.eqb (decl_important style) (decl_important color)
            then decl_value width ++ " " ++ decl_value style ++ " " ++ decl_value color
            else ""
        | _, _, _ => ""
        end
      else ""
  end.

(** [element.style.zIndex = v] and [element.style.outline = v].  The empty
    string removes the declarations (all the longhands of a shorthand);
    removing what is not declared does nothing; a value that does not parse
    is ignored. *)
Definition assign (name v : string) (s : Style) : Style :=
  let decls := match s with Some decls => decls | None => [] end in
  let names := if String.eqb name "zIndex" then ["z-index"]
               else if String.eqb name "outline" then outline_longhands
               else [] in
  if String.eqb v "" then
    if existsb (fun n => match declared n decls with Some _ => true | None => false end) names
    then Some (remove names decls)
    else s
  else if String.eqb name "zIndex" then Some (put "z-index" v decls)
  else if String.eqb name "outline" then
    match parse_outline v with
    | Some (width, style, color) =>
        Some (put "outline-color" color
                (put "outline-style" style (put "outline-width" width decls)))
    | None => s
    end
  else s.

End Cssom.

(** ** Worked examples *)

Module Examples.

(** A header without a [style] attribute. *)
Definition header : Element :=
  mkElement "<h1 class='title'>phil.qa</h1>" None.

(** An image with [style='outline-color: blue; z-index: 2 !important']. *)
Definition avatar : Element :=
  mkElement "<img class='avatar'>"
    (Some [mkDeclaration "outline-color" "blue" false;
           mkDeclaration "z-index" "2" true]).

(** A page on which [h1.title] and [img.avatar] exist. *)
Definition phil_qa : Page :=
  mkPage "https://phil.qa/"
    (fun _ => Ok "<html>...</html>")
    (fun _ sel => Ok (String.eqb sel "h1.title" || String.eqb sel "img.avatar")%bool)
    (fun sel =>
       if String.eqb sel "div[" then None
       else Some (fun e =>
              (String.eqb sel "h1.title" && String.eqb (markup e) (markup header))
              || (String.eqb sel "img.avatar" && String.eqb (markup e) (markup avatar)))%bool)
    Cssom.read Cssom.assign.

Definition answer (status : Z) (retryAfter : option string) (text : string) : Res Response :=
  Ok (mkResponse status "" retryAfter (Ok text)).

(** A backend that is rate limited at first, then cannot tell, then names
    an element that is not there, and at last names the header.  With an
    API key the fetches of four attempts are the effects number 1, 4, 6, 9. *)
Definition moody_backend (n : nat) (_ : Request) : Res Response :=
  if (n <=? 1)%nat then answer 429 (Some "7") ""
  else if (n <=? 4)%nat then answer 200 None "ERROR: Unable to determine selector"
  else if (n <=? 6)%nat then answer 200 None "  .missing "
  else answer 200 None " h1.title ".

Definition world (apiKey : option string) (tc : option TokenCache)
    (file : FileState) (backend : nat -> Request -> Res Response) : World :=
  mkWorld (Some "my-project") (Some "us-central1") (Some "gemini-pro") apiKey
    tc file [header; avatar]
    (fun _ => 4000000) (fun _ => Ok "ya29.fresh")
    backend (fun _ => Written) [].

(** The same world on a disk that refuses every write: the file cannot be
    opened for writing. *)
Definition read_only (w : World) : World :=
  mkWorld (GOOGLE_CLOUD_PROJECT_ID w) (GOOGLE_CLOUD_REGION w)
    (GOOGLE_CLOUD_VERTEX_AI_MODEL w) (GOOGLE_CLOUD_VERTEX_AI_API_KEY w)
    (tokenCache w) (cache_file w) (document w) (Date_now w)
    (auth_getAccessToken w) (fetch_backend w)
    (fun _ => Rejected "EROFS: read-only file system, open 'ai-selector-cache.json'"
                Untouched)
    (trace w).

Definition no_options : AILocatorOptions := mkOptions None None None.

End Examples.

(** ** Observations on traces and strings *)

Definition is_fetch (e : Event) : bool :=
  match e with EvFetch _ => true | _ => false end.

Definition is_acquisition (e : Event) : bool :=
  match e with EvAcquireToken => true | _ => false end.

Definition is_page_query (e : Event) : bool :=
  match e with EvPageQuery _ _ => true | _ => false end.

Definition is_write (e : Event) : bool :=
  match e with EvWriteFile _ => true | _ => false end.

(** How many effects of one kind the world has seen. *)
Definition count (kind : Event -> bool) (w : World) : nat :=
  List.length (List.filter kind (trace w)).

(** [effects_within f a q wr w w']: from [w] to [w'] there were at most [f]
    fetches, [a] token acquisitions, [q] page queries and [wr] cache
    writes. *)
Definition effects_within (f a q wr : nat) (w w' : World) : Prop :=
  (count is_fetch w' <= count is_fetch w + f)%nat /\
  (count is_acquisition w' <= count is_acquisition w + a)%nat /\
  (count is_page_query w' <= count is_page_query w + q)%nat /\
  (count is_write w' <= count is_write w + wr)%nat.

(** [validated_before_write page selector w1 w']: starting from [w1], the
    last two effects of [w'] are a call of [page.$] that found the
    non-empty [selector] and, next, a write of the cache file. *)
Definition validated_before_write (page : Page) (selector : string)
    (w1 w' : World) : Prop :=
  selector <> "" /\
  page_dollar page (tick w1) selector = Ok true /\
  exists c, trace w' = EvWriteFile c :: EvPageQuery selector (Ok true) :: trace w1.

(** What no operation of the module assigns: the environment variables and
    the collaborators. *)
Definition same_surroundings (w w' : World) : Prop :=
  GOOGLE_CLOUD_PROJECT_ID w' = GOOGLE_CLOUD_PROJECT_ID w /\
  GOOGLE_CLOUD_REGION w' = GOOGLE_CLOUD_REGION w /\
  GOOGLE_CLOUD_VERTEX_AI_MODEL w' = GOOGLE_CLOUD_VERTEX_AI_MODEL w /\
  GOOGLE_CLOUD_VERTEX_AI_API_KEY w' = GOOGLE_CLOUD_VERTEX_AI_API_KEY w /\
  Date_now w' = Date_now w /\
  auth_getAccessToken w' = auth_getAccessToken w /\
  fetch_backend w' = fetch_backend w /\
  fs_writeFile w' = fs_writeFile w.

Definition starts_with_space (s : string) : bool :=
  match s with
  | String c _ => JS.is_space c
  | EmptyString => false
  end.

Definition ends_with_space (s : string) : bool :=
  starts_with_space (JS.reverse s).

Fixpoint all_spaces (s : string) : bool :=
  match s with
  | String c rest => JS.is_space c && all_spaces rest
  | EmptyString => true
  end.

(** The state in which every query fails before a request is sent: no
    API key, no cached token, and an identity backend that rejects. *)
Definition locked_out (w : World) : Prop :=
  JS.truthy (GOOGLE_CLOUD_VERTEX_AI_API_KEY w) = false /\
  tokenCache w = None /\
  forall n, exists msg, auth_getAccessToken w n = Throw msg.

(** ** The cache file helper of the test suite *)

(** [deleteAiSelectorCache] of [tests/locator.spec.ts]: [fs.access] then
    [fs.unlink] inside a [try] whose [catch] only logs.  [fs.access] rejects
    with ENOENT on an absent file; on a file that is there, [access] and
    [unlink] are what the file system makes of them. *)
Definition deleteAiSelectorCache (access unlink : nat -> Res unit) : M unit :=
  fun w =>
    match cache_file w with
    | FileAbsent => (Ok tt, w)
    | _ =>
        match access (tick w) with
        | Ok _ =>
            match unlink (tick w) with
            | Ok _ => (Ok tt, set_cache_file FileAbsent w)
            | Throw _ => (Ok tt, w)
            end
        | Throw _ => (Ok tt, w)
        end
    end.

(** ** More worked examples *)

Module Scenarios.

(** The same world with an identity backend that has no credentials. *)
Definition no_credentials (w : World) : World :=
  mkWorld (GOOGLE_CLOUD_PROJECT_ID w) (GOOGLE_CLOUD_REGION w)
    (GOOGLE_CLOUD_VERTEX_AI_MODEL w) (GOOGLE_CLOUD_VERTEX_AI_API_KEY w)
    (tokenCache w) (cache_file w) (document w) (Date_now w)
    (fun _ => Throw "Could not load the default credentials.")
    (fetch_backend w) (fs_writeFile w) (trace w).

(** A backend that answers every request with the given status and body. *)
Definition always (status : Z) (statusText : string) (retryAfter : option string)
    (text : Res string) (_ : nat) (_ : Request) : Res Response :=
  Ok (mkResponse status statusText retryAfter text).

(** A world without API key, token or cache file. *)
Definition token_mode (backend : nat -> Request -> Res Response) : World :=
  Examples.world None None FileAbsent backend.

(** A world with an API key and no cache file. *)
Definition key_mode (backend : nat -> Request -> Res Response) : World :=
  Examples.world (Some "AIza-key") None FileAbsent backend.


(** The page of [Examples.phil_qa] as Playwright sees it: [page.$] also
    takes the text selector [text=phil.qa], which is no CSS selector, and
    rejects a selector that is not a string or that it cannot parse. *)
Definition playwright_page : Page :=
  mkPage "https://phil.qa/"
    (fun _ => Ok "<html>...</html>")
    (fun _ sel =>
       if String.eqb sel "[object Object]" || String.prefix "function " sel
       then Throw "selector: expected string, got object"
       else if String.eqb sel "div["
       then Throw "page.$: Unexpected token while parsing selector"
       else Ok (String.eqb sel "h1.title" || String.eqb sel "img.avatar"
                || String.eqb sel "text=phil.qa")%bool)
    (fun sel =>
       if String.eqb sel "div[" || String.eqb sel "text=phil.qa" then None
       else css_matches Examples.phil_qa sel)
    Cssom.read Cssom.assign.

(** A world with an API key whose cache file holds one selector for the
    header of [Examples.phil_qa]. *)
Definition with_cached (selector : string)
    (backend : nat -> Request -> Res Response) : World :=
  Examples.world (Some "AIza-key") None
    (FileHolds (CacheDocument
                  {[ "https://phil.qa/" := {[ "page header text" := selector ]} ]}))
    backend.

End Scenarios.

(** ** Cache Store: loading *)

(** C3. [loadCache] never raises: whatever the state of the cache file, it
    resolves, does nothing to the world, and gives the parsed mapping when
    the file was read and parsed, and the empty mapping when the file is
    absent, unreadable or unparseable. *)
Theorem loadCache_never_raises (w : World) :
  exists cache : gmap string (gmap string string),
    loadCache w = (Ok cache, w) /\
    (forall c, cache_file w = FileHolds (CacheDocument c) -> cache = c) /\
    (cache_file w = FileAbsent -> cache = ∅) /\
    (cache_file w = FileUnreadable -> cache = ∅) /\
    (forall text, cache_file w = FileHolds (Unparseable text) -> cache = ∅).
Proof.
  unfold loadCache.
  destruct (cache_file w) as [ | | [text | c]] eqn:Hfile.
  - exists ∅. repeat split; congruence.
  - exists ∅. repeat split; congruence.
  - exists ∅. repeat split; congruence.
  - exists c. repeat split; congruence.
Qed.

(** ** Credential Provider *)

Lemma refresh_token_ok (now : Z) (w : World) (newToken : string) :
  auth_getAccessToken w (tick w) = Ok newToken ->
  refresh_token now w
  = (Ok newToken,
     set_tokenCache (Some (mkTokenCache newToken now)) (record EvAcquireToken w)).
Proof.
  intros Hacq. unfold refresh_token, bind, acquire_token. rewrite Hacq. reflexivity.
Qed.

(** C4. A cached token of age at most 59 minutes is returned and nothing
    else happens (the world, hence the trace and the token cache, is
    unchanged: no acquisition); with no cached token, or one older than 59
    minutes, one token is acquired from the identity backend, the token
    cache afterwards holds that token with the time of the call, the fresh
    token is returned, and nothing else has changed. *)
Theorem getValidAccessToken_reuse_or_refresh (w : World) :
  let currentTime := Date_now w (tick w) in
  (forall tc,
      tokenCache w = Some tc ->
      currentTime - timestamp tc <= 59 * 60 * 1000 ->
      getValidAccessToken w = (Ok (token tc), w))
  /\
  (forall newToken,
      (tokenCache w = None \/
       exists tc, tokenCache w = Some tc /\ currentTime - timestamp tc > 59 * 60 * 1000) ->
      auth_getAccessToken w (tick w) = Ok newToken ->
      exists w',
        getValidAccessToken w = (Ok newToken, w') /\
        tokenCache w' = Some (mkTokenCache newToken currentTime) /\
        trace w' = EvAcquireToken :: trace w /\
        cache_file w' = cache_file w /\
        document w' = document w /\
        same_surroundings w w').
Proof.
  intros currentTime. split.
  - intros tc Hcached Hage. unfold getValidAccessToken. rewrite Hcached.
    fold currentTime.
    destruct (Z.gtb_spec (currentTime - timestamp tc) token_lifetime) as [Hgt | Hle].
    + unfold token_lifetime in Hgt. lia.
    + reflexivity.
  - intros newToken Hstale Hacq.
    exists (set_tokenCache (Some (mkTokenCache newToken currentTime))
              (record EvAcquireToken w)).
    split; [ | unfold same_surroundings; cbn; repeat split; reflexivity].
    unfold getValidAccessToken. fold currentTime.
    destruct Hstale as [Hnone | [tc [Hcached Hage]]].
    + rewrite Hnone. now apply refresh_token_ok.
    + rewrite Hcached.
      destruct (Z.gtb_spec (currentTime - timestamp tc) token_lifetime) as [Hgt | Hle].
      * now apply refresh_token_ok.
      * unfold token_lifetime in Hle. lia.
Qed.

Lemma getValidAccessToken_witness :
  let fresh := Examples.world None (Some (mkTokenCache "ya29.cached" 500000)) FileAbsent
                 (fun _ _ => Throw "offline") in
  let stale := Examples.world None (Some (mkTokenCache "ya29.old" 100)) FileAbsent
                 (fun _ _ => Throw "offline") in
  getValidAccessToken fresh = (Ok "ya29.cached", fresh) /\
  fst (getValidAccessToken stale) = Ok "ya29.fresh" /\
  tokenCache (snd (getValidAccessToken stale))
  = Some (mkTokenCache "ya29.fresh" 4000000) /\
  trace (snd (getValidAccessToken stale)) = [EvAcquireToken].
Proof.
  intros fresh stale. split.
  - apply (proj1 (getValidAccessToken_reuse_or_refresh fresh)
             (mkTokenCache "ya29.cached" 500000)).
    + reflexivity.
    + vm_compute. discriminate.
  - destruct (proj2 (getValidAccessToken_reuse_or_refresh stale) "ya29.fresh")
      as [w' [Hrun [Hcache [Htrace _]]]].
    + right. exists (mkTokenCache "ya29.old" 100). split; [reflexivity | reflexivity].
    + reflexivity.
    + rewrite Hrun. split; [reflexivity | split; [exact Hcache | exact Htrace]].
Defined.

(** ** Model Client *)

Lemma truthy_some (key : string) : key <> "" -> JS.truthy (Some key) = true.
Proof.
  intros Hkey. unfold JS.truthy.
  destruct (String.eqb_spec key ""); [contradiction | reflexivity].
Qed.

Lemma truthy_unset_or_empty (v : option string) :
  v = None \/ v = Some "" -> JS.truthy v = false.
Proof. intros [-> | ->]; reflexivity. Qed.

(** A query in key mode: one [fetch], then what [read_response] does. *)
Lemma read_response_effects (response : Response) (w : World) :
  tokenCache (snd (read_response response w)) = tokenCache w /\
  (trace (snd (read_response response w)) = trace w \/
   trace (snd (read_response response w)) = EvWait (retry_delay response) :: trace w).
Proof.
  unfold read_response.
  destruct (res_status response =? 429).
  - split; [reflexivity | right; reflexivity].
  - destruct (negb (res_ok response)).
    + split; [reflexivity | left; reflexivity].
    + destruct (res_text response); split; try reflexivity; left; reflexivity.
Qed.

Lemma queryGeminiAPI_after_selection (prompt : string) (w w1 : World) (req : Request) :
  select_endpoint prompt w = (Ok req, w1) ->
  queryGeminiAPI prompt w
  = match fetch_backend w1 (tick w1) req with
    | Ok response => read_response response (record (EvFetch req) w1)
    | Throw msg => (Throw msg, record (EvFetch req) w1)
    end.
Proof.
  intros Hsel. unfold queryGeminiAPI, bind. rewrite Hsel. unfold fetch.
  destruct (fetch_backend w1 (tick w1) req); reflexivity.
Qed.

(** C7, as the code has it.  The key-authenticated endpoint is used exactly
    when the API-key variable holds a non-empty string: the request then
    carries no bearer token, and the Credential Provider is not invoked (the
    token cache is untouched and the only effects of the query are the fetch
    and, when rate limited, the wait).  When the variable is unset or empty
    the token-authenticated endpoint is used with a bearer token from
    [getValidAccessToken].  [getCurrentAPIEndpoint] answers by the same test. *)
Theorem endpoint_follows_nonempty_api_key (prompt : string) (w : World) :
  (forall key,
      GOOGLE_CLOUD_VERTEX_AI_API_KEY w = Some key -> key <> "" ->
      let req := mkRequest (key_endpoint (GOOGLE_CLOUD_VERTEX_AI_MODEL w) (Some key))
                   None prompt in
      select_endpoint prompt w = (Ok req, w) /\
      tokenCache (snd (queryGeminiAPI prompt w)) = tokenCache w /\
      (trace (snd (queryGeminiAPI prompt w)) = EvFetch req :: trace w \/
       exists ms, trace (snd (queryGeminiAPI prompt w))
                  = EvWait ms :: EvFetch req :: trace w) /\
      getCurrentAPIEndpoint w
      = "API key based endpoint (generativelanguage.googleapis.com)")
  /\
  (GOOGLE_CLOUD_VERTEX_AI_API_KEY w = None \/
   GOOGLE_CLOUD_VERTEX_AI_API_KEY w = Some "" ->
   select_endpoint prompt w
   = (await accessToken <- getValidAccessToken;
      ret (mkRequest
             (token_endpoint (GOOGLE_CLOUD_REGION w) (GOOGLE_CLOUD_PROJECT_ID w)
                (GOOGLE_CLOUD_VERTEX_AI_MODEL w))
             (Some ("Bearer " ++ accessToken)) prompt)) w /\
   getCurrentAPIEndpoint w
   = "Access token based endpoint (aiplatform.googleapis.com)").
Proof.
  split.
  - intros key Hset Hkey req.
    assert (Hsel : select_endpoint prompt w = (Ok req, w)).
    { unfold select_endpoint. rewrite Hset, (truthy_some key Hkey). reflexivity. }
    split; [exact Hsel | ].
    rewrite (queryGeminiAPI_after_selection prompt w w req Hsel).
    destruct (fetch_backend w (tick w) req) as [response | msg].
    + destruct (read_response_effects response (record (EvFetch req) w)) as [Htok Htr].
      split; [exact Htok | ].
      split.
      * destruct Htr as [Htr | Htr]; [left | right; eexists]; exact Htr.
      * unfold getCurrentAPIEndpoint. rewrite Hset, (truthy_some key Hkey). reflexivity.
    + split; [reflexivity | ].
      split; [left; reflexivity | ].
      unfold getCurrentAPIEndpoint. rewrite Hset, (truthy_some key Hkey). reflexivity.
  - intros Hunset. split.
    + unfold select_endpoint. rewrite (truthy_unset_or_empty _ Hunset). reflexivity.
    + unfold getCurrentAPIEndpoint. rewrite (truthy_unset_or_empty _ Hunset). reflexivity.
Qed.

Lemma endpoint_follows_nonempty_api_key_witness :
  select_endpoint "p"
    (Examples.world (Some "AIza-key") None FileAbsent (fun _ _ => Throw "offline"))
  = (Ok (mkRequest
           "https://generativelanguage.googleapis.com/v1beta/models/gemini-pro:generateContent?key=AIza-key"
           None "p"),
     Examples.world (Some "AIza-key") None FileAbsent (fun _ _ => Throw "offline"))
  /\
  getCurrentAPIEndpoint
    (Examples.world None None FileAbsent (fun _ _ => Throw "offline"))
  = "Access token based endpoint (aiplatform.googleapis.com)".
Proof.
  split.
  - refine (proj1 (proj1 (endpoint_follows_nonempty_api_key "p" _) "AIza-key" _ _)).
    + reflexivity.
    + discriminate.
  - refine (proj2 (proj2 (endpoint_follows_nonempty_api_key "p" _) _)).
    left. reflexivity.
Defined.

(** C7 as stated fails: with the API-key variable set to the empty string
    the query goes to the token-authenticated endpoint with a bearer token,
    the identity backend is asked for that token, and
    [getCurrentAPIEndpoint] reports the token endpoint. *)
Lemma empty_api_key_takes_token_path :
  let w := Examples.world (Some "") None FileAbsent (fun _ _ => Throw "offline") in
  GOOGLE_CLOUD_VERTEX_AI_API_KEY w = Some "" /\
  fst (select_endpoint "p" w)
  = Ok (mkRequest
          "https://us-central1-aiplatform.googleapis.com/v1/projects/my-project/locations/us-central1/publishers/google/models/gemini-pro:generateContent"
          (Some "Bearer ya29.fresh") "p") /\
  trace (snd (select_endpoint "p" w)) = [EvAcquireToken] /\
  getCurrentAPIEndpoint w = "Access token based endpoint (aiplatform.googleapis.com)".
Proof. repeat split. Qed.

(** ** Selector Resolver: the equations of the loop *)

Section Loop.

Variable page : Page.
Variable description : string.
Variable cache : gmap string (gmap string string).

Lemma ask_model_unfold (w : World) (html : string) :
  page_content page (tick w) = Ok html ->
  ask_model page description w
  = match queryGeminiAPI (build_prompt description html) (record EvPageContent w) with
    | (Ok response, w') =>
        (Ok (if String.prefix "ERROR:" response then None else Some response), w')
    | (Throw _, w') => (Ok None, w')
    end.
Proof.
  intros Hhtml. unfold ask_model, bind, try_catch, content. rewrite Hhtml.
  destruct (queryGeminiAPI (build_prompt description html) (record EvPageContent w))
    as [[response | msg] w'].
  - destruct (String.prefix "ERROR:" response); reflexivity.
  - reflexivity.
Qed.

Lemma ask_model_content_fails (w : World) (msg : string) :
  page_content page (tick w) = Throw msg ->
  ask_model page description w = (Throw msg, record EvPageContent w).
Proof.
  intros Hhtml. unfold ask_model, bind, content. rewrite Hhtml. reflexivity.
Qed.

Lemma candidate_from_model (retries : Z) :
  JS.truthy (cached_selector cache (page_url page) description) && (retries =? 0) = false ->
  candidate page description cache retries = ask_model page description.
Proof. intros Hguard. unfold candidate. rewrite Hguard. reflexivity. Qed.


Lemma candidate_from_cache (selector : string) (w : World) :
  cached_selector cache (page_url page) description = Some selector ->
  selector <> "" ->
  candidate page description cache 0 w = (Ok (Some selector), w).
Proof.
  intros Hcached Hsel. unfold candidate.
  rewrite Hcached, (truthy_some selector Hsel). reflexivity.
Qed.

Lemma attempt_unfold (retries : Z) (w : World) :
  attempt page description cache retries w
  = match candidate page description cache retries w with
    | (Ok (Some selector), w') =>
        validate page description cache
          (member_candidate page description cache retries) selector w'
    | (Ok None, w') => (Ok NextAttempt, w')
    | (Throw msg, w') => (Throw msg, w')
    end.
Proof.
  unfold attempt, bind.
  destruct (candidate page description cache retries w) as [[[selector | ] | msg] w'];
    reflexivity.
Qed.

Lemma validate_no_match (member : bool) (selector : string) (w : World) :
  page_dollar page (tick w) selector = Ok false ->
  validate page description cache member selector w
  = (Ok NextAttempt,
     if JS.truthy (Some selector)
     then record (EvPageQuery selector (Ok false)) w else w).
Proof.
  intros Hnone. unfold validate.
  destruct (JS.truthy (Some selector)); [ | reflexivity].
  unfold bind, element_exists. rewrite Hnone. reflexivity.
Qed.


Lemma attempts_zero (retries : Z) (w : World) :
  attempts 0 page description cache retries w
  = (Throw (exhausted_message description), w).
Proof. reflexivity. Qed.

Lemma attempts_next (remaining : nat) (retries : Z) (w w' : World) :
  attempt page description cache retries w = (Ok NextAttempt, w') ->
  attempts (S remaining) page description cache retries w
  = attempts remaining page description cache (retries + 1) w'.
Proof.
  intros Hstep. cbn [attempts]. unfold bind. rewrite Hstep. reflexivity.
Qed.

Lemma attempts_return (remaining : nat) (retries : Z) (w w' : World) (selector : string) :
  attempt page description cache retries w = (Ok (Return selector), w') ->
  attempts (S remaining) page description cache retries w = (Ok selector, w').
Proof.
  intros Hstep. cbn [attempts]. unfold bind. rewrite Hstep. reflexivity.
Qed.

Lemma attempts_throw (remaining : nat) (retries : Z) (w w' : World) (msg : string) :
  attempt page description cache retries w = (Throw msg, w') ->
  attempts (S remaining) page description cache retries w = (Throw msg, w').
Proof.
  intros Hstep. cbn [attempts]. unfold bind. rewrite Hstep. reflexivity.
Qed.

End Loop.

(** The number of iterations left, [maxRetries - retries], agrees with the
    guard [retries < maxRetries] of the [while] loop. *)
Lemma while_guard (limit retries : Z) :
  (Z.to_nat (limit - retries) = 0%nat <-> ~ retries < limit) /\
  (forall n, Z.to_nat (limit - retries) = S n ->
             retries < limit /\ Z.to_nat (limit - (retries + 1)) = n).
Proof. split; [lia | intros n Hn; lia]. Qed.

(** ** Model Client: rate limiting *)

Lemma retry_delay_default (response : Response) :
  res_retryAfter response = None -> retry_delay response = Some 30000.
Proof. intros Hnone. unfold retry_delay. rewrite Hnone. reflexivity. Qed.

Lemma retry_delay_hint (response : Response) (hint : string) (seconds : Z) :
  res_retryAfter response = Some hint -> hint <> "" ->
  JS.parseInt hint = Some seconds ->
  retry_delay response = Some (seconds * 1000).
Proof.
  intros Hhint Hne Hparse. unfold retry_delay.
  rewrite Hhint, (truthy_some hint Hne). cbn [JS.interpolate].
  rewrite Hparse. reflexivity.
Qed.

(** C5. On a response of status 429 the client computes the delay from the
    Retry-After header (seconds, 30 when there is no header), waits for it
    and throws the rate-limit error: the call performs that one fetch and no
    other.  In the resolver the failed query ends the iteration: the loop
    goes on with the counter advanced and one attempt less. *)
Theorem rate_limited_query_waits_then_fails
    (prompt : string) (w w1 : World) (req : Request) (response : Response) :
  select_endpoint prompt w = (Ok req, w1) ->
  fetch_backend w1 (tick w1) req = Ok response ->
  res_status response = 429 ->
  let w2 := record (EvWait (retry_delay response)) (record (EvFetch req) w1) in
  queryGeminiAPI prompt w = (Throw rate_limit_message, w2) /\
  (res_retryAfter response = None -> retry_delay response = Some (30 * 1000)) /\
  (forall hint seconds,
      res_retryAfter response = Some hint -> hint <> "" ->
      JS.parseInt hint = Some seconds ->
      retry_delay response = Some (seconds * 1000)) /\
  (forall page description cache retries remaining w0 html,
      JS.truthy (cached_selector cache (page_url page) description) && (retries =? 0) = false ->
      page_content page (tick w0) = Ok html ->
      prompt = build_prompt description html ->
      w = record EvPageContent w0 ->
      attempts (S remaining) page description cache retries w0
      = attempts remaining page description cache (retries + 1) w2).
Proof.
  intros Hsel Hfetch Hstatus w2.
  assert (Hquery : queryGeminiAPI prompt w = (Throw rate_limit_message, w2)).
  { rewrite (queryGeminiAPI_after_selection prompt w w1 req Hsel), Hfetch.
    unfold read_response. rewrite Hstatus. reflexivity. }
  split; [exact Hquery | ].
  split; [apply retry_delay_default | ].
  split; [apply retry_delay_hint | ].
  intros page description cache retries remaining w0 html Hguard Hhtml -> ->.
  apply attempts_next.
  rewrite attempt_unfold, (candidate_from_model _ _ _ _ Hguard).
  rewrite (ask_model_unfold page description w0 html Hhtml), Hquery.
  reflexivity.
Qed.

Lemma rate_limited_query_witness :
  let w0 := Examples.world (Some "AIza-key") None FileAbsent
              (fun _ _ => Examples.answer 429 (Some "7") "") in
  let prompt := build_prompt "page header text" "<html>...</html>" in
  let req := mkRequest
               "https://generativelanguage.googleapis.com/v1beta/models/gemini-pro:generateContent?key=AIza-key"
               None prompt in
  let w2 := record (EvWait (Some 7000)) (record (EvFetch req) (record EvPageContent w0)) in
  queryGeminiAPI prompt (record EvPageContent w0)
  = (Throw "Gemini API request failed due to rate limiting.", w2) /\
  retry_delay (mkResponse 429 "" (Some "7") (Ok "")) = Some (7 * 1000) /\
  attempts 2 Examples.phil_qa "page header text" ∅ 0 w0
  = attempts 1 Examples.phil_qa "page header text" ∅ (0 + 1) w2 /\
  retry_delay (mkResponse 429 "Too Many Requests" None (Ok "")) = Some (30 * 1000).
Proof.
  intros w0 prompt req w2.
  destruct (rate_limited_query_waits_then_fails prompt (record EvPageContent w0)
              (record EvPageContent w0) req (mkResponse 429 "" (Some "7") (Ok ""))
              ltac:(vm_compute; reflexivity) ltac:(vm_compute; reflexivity) eq_refl)
    as [Hquery [_ [Hhint Hloop]]].
  destruct (rate_limited_query_waits_then_fails "p"
              (Examples.world (Some "AIza-key") None FileAbsent
                 (fun _ _ => Ok (mkResponse 429 "Too Many Requests" None (Ok ""))))
              _ (mkRequest
                   "https://generativelanguage.googleapis.com/v1beta/models/gemini-pro:generateContent?key=AIza-key"
                   None "p")
              (mkResponse 429 "Too Many Requests" None (Ok ""))
              ltac:(vm_compute; reflexivity) ltac:(vm_compute; reflexivity) eq_refl)
    as [_ [Hdefault _]].
  split; [exact Hquery | split; [ | split]].
  - apply (Hhint "7" 7); [reflexivity | discriminate | reflexivity].
  - apply (Hloop Examples.phil_qa "page header text" ∅ 0 1%nat w0 "<html>...</html>");
      reflexivity.
  - apply Hdefault. reflexivity.
Defined.

(** ** Selector Resolver: the retry budget *)

Lemma maxRetries_falsy (options : AILocatorOptions) :
  retries options = None \/ retries options = Some 0 -> maxRetries options = 3.
Proof. unfold maxRetries. intros [-> | ->]; reflexivity. Qed.

Lemma maxRetries_truthy (options : AILocatorOptions) (n : Z) :
  retries options = Some n -> n <> 0 -> maxRetries options = n.
Proof.
  unfold maxRetries. intros -> Hn. cbn.
  destruct (Z.eqb_spec n 0); [contradiction | reflexivity].
Qed.

Lemma loadCache_stored (w : World) : loadCache w = (Ok (stored_cache w), w).
Proof.
  unfold loadCache, stored_cache.
  destruct (cache_file w) as [ | | [text | c]]; reflexivity.
Qed.

Lemma getAiSelector_unfold (page : Page) (description : string)
    (options : AILocatorOptions) (w : World) :
  getAiSelector page description options w
  = attempts (Z.to_nat (maxRetries options)) page description (stored_cache w) 0 w.
Proof. unfold getAiSelector, bind. rewrite loadCache_stored. reflexivity. Qed.

(** C9, as the code has it.  A [retries] option that is absent or 0 gives a
    budget of 3 attempts; any other value is taken as it is, so that a
    negative value gives no attempt at all: the resolver fails at once with
    the descriptive error and touches nothing. *)
Theorem retries_default_for_falsy_values
    (page : Page) (description : string) (options : AILocatorOptions) (w : World) :
  (retries options = None \/ retries options = Some 0 ->
   maxRetries options = 3 /\
   getAiSelector page description options w
   = (await cache <- loadCache; attempts 3 page description cache 0) w)
  /\
  (forall n, retries options = Some n -> n <> 0 -> maxRetries options = n)
  /\
  (forall n, retries options = Some n -> n < 0 ->
   getAiSelector page description options w
   = (Throw (exhausted_message description), w)).
Proof.
  split; [ | split].
  - intros Hfalsy. split; [now apply maxRetries_falsy | ].
    unfold getAiSelector. rewrite (maxRetries_falsy options Hfalsy). reflexivity.
  - apply maxRetries_truthy.
  - intros n Hn Hneg. rewrite getAiSelector_unfold.
    rewrite (maxRetries_truthy options n Hn) by lia.
    replace (Z.to_nat n) with 0%nat by lia. reflexivity.
Qed.

Lemma retries_default_witness :
  maxRetries (mkOptions (Some 10000) (Some 0) None) = 3 /\
  maxRetries (mkOptions None (Some 2) None) = 2 /\
  getAiSelector Examples.phil_qa "page header text" (mkOptions None (Some (-1)) None)
    (Examples.world None None FileAbsent (fun _ _ => Examples.answer 200 None "h1.title"))
  = (Throw "Failed to generate a valid selector for description: page header text",
     Examples.world None None FileAbsent (fun _ _ => Examples.answer 200 None "h1.title")).
Proof.
  split; [ | split].
  - refine (proj1 (proj1 (retries_default_for_falsy_values Examples.phil_qa ""
                            (mkOptions (Some 10000) (Some 0) None)
                            (Examples.world None None FileAbsent (fun _ _ => Throw "offline"))) _)).
    right. reflexivity.
  - refine (proj1 (proj2 (retries_default_for_falsy_values Examples.phil_qa ""
                            (mkOptions None (Some 2) None)
                            (Examples.world None None FileAbsent (fun _ _ => Throw "offline")))) 2 _ _).
    + reflexivity.
    + discriminate.
  - refine (proj2 (proj2 (retries_default_for_falsy_values Examples.phil_qa _
                            (mkOptions None (Some (-1)) None) _)) (-1) _ _).
    + reflexivity.
    + reflexivity.
Defined.

(** C9 as stated fails: with [retries: -1] the public [aiLocator] makes no
    attempt (no page or backend call is made although the backend would have
    answered with a matching selector) and rejects. *)
Lemma negative_retries_requests_zero_attempts :
  let w := Examples.world None None FileAbsent
             (fun _ _ => Examples.answer 200 None "h1.title") in
  let options := mkOptions None (Some (-1)) None in
  Z.to_nat (maxRetries options) = 0%nat /\
  aiLocator Examples.phil_qa "page header text" options w
  = (Throw "Failed to generate a valid selector for description: page header text", w) /\
  fst (aiLocator Examples.phil_qa "page header text" (mkOptions None (Some 1) None) w)
  = Ok (mkLocator "h1.title").
Proof. repeat split. Qed.

(** C10. The [timeout] option is never read: two calls that differ only in
    it give the same result and the same world afterwards (cache file
    included), for the resolver and for the operations built on it. *)
Theorem timeout_option_is_inert
    (page : Page) (description : string) (options : AILocatorOptions)
    (t1 t2 : option Z) (w : World) :
  getAiSelector page description (with_timeout t1 options) w
  = getAiSelector page description (with_timeout t2 options) w /\
  aiLocator page description (with_timeout t1 options) w
  = aiLocator page description (with_timeout t2 options) w /\
  highlightAILocator page description (with_timeout t1 options) w
  = highlightAILocator page description (with_timeout t2 options) w.
Proof. repeat split. Qed.

(** ** What the operations leave alone *)

(** Only [saveCache] writes the cache file. *)
Lemma getValidAccessToken_disk (w : World) :
  cache_file (snd (getValidAccessToken w)) = cache_file w.
Proof.
  unfold getValidAccessToken, refresh_token, bind, acquire_token.
  destruct (tokenCache w) as [tc | ].
  - destruct (_ >? _); [ | reflexivity].
    destruct (auth_getAccessToken w (tick w)); reflexivity.
  - destruct (auth_getAccessToken w (tick w)); reflexivity.
Qed.

Lemma select_endpoint_disk (prompt : string) (w : World) :
  cache_file (snd (select_endpoint prompt w)) = cache_file w.
Proof.
  unfold select_endpoint.
  destruct (JS.truthy (GOOGLE_CLOUD_VERTEX_AI_API_KEY w)); [reflexivity | ].
  unfold bind. pose proof (getValidAccessToken_disk w) as Htok.
  destruct (getValidAccessToken w) as [[tok | msg] w1]; exact Htok.
Qed.

Lemma read_response_disk (response : Response) (w : World) :
  cache_file (snd (read_response response w)) = cache_file w.
Proof.
  unfold read_response.
  destruct (res_status response =? 429); [reflexivity | ].
  destruct (negb (res_ok response)); [reflexivity | ].
  destruct (res_text response); reflexivity.
Qed.

Lemma queryGeminiAPI_disk (prompt : string) (w : World) :
  cache_file (snd (queryGeminiAPI prompt w)) = cache_file w.
Proof.
  pose proof (select_endpoint_disk prompt w) as Hsel.
  destruct (select_endpoint prompt w) as [[req | msg] w1] eqn:Hrun.
  - rewrite (queryGeminiAPI_after_selection prompt w w1 req Hrun).
    destruct (fetch_backend w1 (tick w1) req) as [response | msg].
    + rewrite read_response_disk. exact Hsel.
    + exact Hsel.
  - unfold queryGeminiAPI, bind. rewrite Hrun. exact Hsel.
Qed.

Lemma ask_model_disk (page : Page) (description : string) (w : World) :
  cache_file (snd (ask_model page description w)) = cache_file w.
Proof.
  destruct (page_content page (tick w)) as [html | msg] eqn:Hhtml.
  - rewrite (ask_model_unfold page description w html Hhtml).
    pose proof (queryGeminiAPI_disk (build_prompt description html)
                  (record EvPageContent w)) as Hq.
    destruct (queryGeminiAPI _ _) as [[response | msg] w1]; exact Hq.
  - rewrite (ask_model_content_fails page description w msg Hhtml). reflexivity.
Qed.

Lemma candidate_disk (page : Page) (description : string)
    (cache : gmap string (gmap string string)) (retries : Z) (w : World) :
  cache_file (snd (candidate page description cache retries w)) = cache_file w.
Proof.
  unfold candidate. destruct (_ && _); [reflexivity | apply ask_model_disk].
Qed.

Lemma truthy_some_inv (selector : string) :
  JS.truthy (Some selector) = true -> selector <> "".
Proof.
  unfold JS.truthy. destruct (String.eqb_spec selector ""); [discriminate | auto].
Qed.

(** ** Selector Resolver: how an iteration can end *)

Section Iteration.

Variable page : Page.
Variable description : string.
Variable cache : gmap string (gmap string string).

Lemma ask_model_throw_inv (w w' : World) (msg : string) :
  ask_model page description w = (Throw msg, w') ->
  page_content page (tick w) = Throw msg /\ w' = record EvPageContent w.
Proof.
  destruct (page_content page (tick w)) as [html | msg'] eqn:Hhtml.
  - rewrite (ask_model_unfold page description w html Hhtml).
    destruct (queryGeminiAPI _ _) as [[response | msg'] w1]; discriminate.
  - rewrite (ask_model_content_fails page description w msg' Hhtml).
    intros Heq. injection Heq as -> ->. split; reflexivity.
Qed.

Lemma candidate_throw_inv (retries : Z) (w w' : World) (msg : string) :
  candidate page description cache retries w = (Throw msg, w') ->
  page_rejects page msg w'.
Proof.
  unfold candidate. destruct (_ && _).
  - discriminate.
  - intros Hask. apply ask_model_throw_inv in Hask as [Hhtml ->].
    now apply rejects_content.
Qed.

Lemma validate_cases (member : bool) (selector : string) (w : World) :
  validate_outcome page description cache member selector w
    (validate page description cache member selector w).
Proof.
  unfold validate.
  destruct (JS.truthy (Some selector)) eqn:Htruthy.
  - apply truthy_some_inv in Htruthy.
    unfold bind, element_exists.
    destruct (page_dollar page (tick w) selector) as [[ | ] | msg] eqn:Hq.
    + unfold saveCache. cbn [tick record trace List.length fs_writeFile].
      destruct (fs_writeFile w (S (List.length (trace w)))) as [ | msg damage] eqn:Hwrite.
      * now apply validate_found.
      * exact (validate_write_rejected page description cache member selector w
                 msg damage Htruthy Hq Hwrite).
    + apply validate_retry; [reflexivity | right; split; [exact Hq | reflexivity]].
    + apply validate_page_rejects; [reflexivity | now apply rejects_query].
  - apply validate_retry; [reflexivity | left; split; [ | reflexivity]].
    unfold JS.truthy in Htruthy.
    destruct (String.eqb_spec selector ""); [assumption | discriminate].
Qed.

Lemma attempt_cases (retries : Z) (w : World) :
  attempt_outcome page description cache retries w
    (attempt page description cache retries w).
Proof.
  rewrite attempt_unfold.
  pose proof (candidate_disk page description cache retries w) as Hdisk.
  destruct (candidate page description cache retries w)
    as [[[selector | ] | msg] w1] eqn:Hcand; cbn [snd] in Hdisk.
  - destruct (validate_cases (member_candidate page description cache retries) selector w1)
      as [Hsel Hfound Hwrite | w' Hfile _ | msg w' Hfile Hun
         | msg damage Hsel Hfound Hwrite].
    + now apply attempt_success.
    + apply attempt_retry. congruence.
    + apply attempt_page_rejects; [congruence | exact Hun].
    + now apply attempt_write_rejected.
  - now apply attempt_retry.
  - apply attempt_page_rejects; [exact Hdisk | ].
    now apply (candidate_throw_inv retries w).
Qed.

End Iteration.

(** ** Selector Resolver: how a resolution can end *)

Section Resolution.

Variable page : Page.
Variable description : string.
Variable cache : gmap string (gmap string string).

Lemma failed_attempts_snoc (n : nat) (retries : Z) (w w1 w2 : World) :
  failed_attempts page description cache n retries w w1 ->
  attempt page description cache (retries + Z.of_nat n) w1 = (Ok NextAttempt, w2) ->
  failed_attempts page description cache (S n) retries w w2.
Proof.
  intros Hfailed. induction Hfailed as [retries w | n retries w wa wb Hstep Hrest IH].
  - rewrite Z.add_0_r. intros Hlast.
    eapply failed_again; [exact Hlast | apply failed_none].
  - intros Hlast. eapply failed_again; [exact Hstep | ].
    apply IH. rewrite <- Hlast. f_equal. lia.
Qed.

Lemma failed_attempts_disk (n : nat) (retries : Z) (w w' : World) :
  failed_attempts page description cache n retries w w' ->
  cache_file w' = cache_file w.
Proof.
  induction 1 as [retries w | n retries w w1 w2 Hstep Hrest IH]; [reflexivity | ].
  rewrite IH.
  pose proof (attempt_cases page description cache retries w) as Hcases.
  rewrite Hstep in Hcases. inversion Hcases. assumption.
Qed.

Lemma attempts_after_failures (k n : nat) (retries : Z) (w w1 : World) :
  failed_attempts page description cache k retries w w1 ->
  attempts (k + n) page description cache retries w
  = attempts n page description cache (retries + Z.of_nat k) w1.
Proof.
  induction 1 as [retries w | k retries w wa wb Hstep Hrest IH].
  - rewrite Z.add_0_r. reflexivity.
  - cbn [Nat.add]. rewrite (attempts_next _ _ _ _ _ _ _ Hstep), IH.
    f_equal. lia.
Qed.

Lemma attempts_outcome (n : nat) (retries : Z) (w : World) :
  resolution_outcome page description cache n retries w
    (attempts n page description cache retries w).
Proof.
  revert retries w. induction n as [ | n IH]; intros retries w.
  - rewrite attempts_zero. apply exhausted, failed_none.
  - pose proof (attempt_cases page description cache retries w) as Hcases.
    destruct (attempt page description cache retries w) as [r w1] eqn:Hstep.
    inversion Hcases as [selector w0 Hcand Hsel Hfound Hwrite Heq
                        | w' Hfile Heq | msg w' Hfile Hun Heq
                        | msg damage selector w0 Hcand Hsel Hfound Hwrite Heq]; subst.
    + rewrite (attempts_return _ _ _ _ _ _ _ _ Hstep).
      replace retries with (retries + Z.of_nat 0) at 2 by lia.
      apply (resolved _ _ _ (S n) retries w 0 selector w w0);
        [lia | apply failed_none | now rewrite Z.add_0_r | assumption | assumption
        | assumption].
    + rewrite (attempts_next _ _ _ _ _ _ _ Hstep).
      destruct (IH (retries + 1) w1)
        as [k selector wa wb Hk Hfailed Hcand Hsel Hfound Hwrite
           | w' Hfailed | k msg wa w' Hk Hfailed Hthrow Hfile' Hun
           | k msg damage selector wa wb Hk Hfailed Hcand Hsel Hfound Hwrite].
      * replace (retries + 1 + Z.of_nat k) with (retries + Z.of_nat (S k)) in * by lia.
        apply (resolved _ _ _ (S n) retries w (S k) selector wa wb);
          [lia | eapply failed_again; eassumption | assumption | assumption
          | assumption | assumption].
      * apply exhausted. eapply failed_again; eassumption.
      * apply (aborted_by_page _ _ _ (S n) retries w (S k) msg wa w');
          [lia | eapply failed_again; eassumption | | assumption | assumption].
        rewrite <- Hthrow. f_equal. lia.
      * replace (retries + 1 + Z.of_nat k) with (retries + Z.of_nat (S k)) in * by lia.
        apply (aborted_by_write _ _ _ (S n) retries w (S k) msg damage selector wa wb);
          [lia | eapply failed_again; eassumption | assumption | assumption
          | assumption | assumption].
    + rewrite (attempts_throw _ _ _ _ _ _ _ _ Hstep).
      apply (aborted_by_page _ _ _ (S n) retries w 0 msg w w1);
        [lia | apply failed_none | now rewrite Z.add_0_r | assumption | assumption].
    + rewrite (attempts_throw _ _ _ _ _ _ _ _ Hstep).
      replace retries with (retries + Z.of_nat 0) at 2 by lia.
      apply (aborted_by_write _ _ _ (S n) retries w 0 msg damage selector w w0);
        [lia | apply failed_none | now rewrite Z.add_0_r | assumption | assumption
        | assumption].
Qed.

End Resolution.

Lemma validated_and_saved_seen (page : Page) (description : string)
    (cache : gmap string (gmap string string)) (member : bool) (selector : string)
    (w : World) :
  selector <> "" ->
  page_dollar page (tick w) selector = Ok true ->
  validated_before_write page selector w
    (validated_and_saved page description cache member selector w).
Proof.
  intros Hsel Hfound. split; [exact Hsel | split; [exact Hfound | ]].
  eexists. reflexivity.
Qed.

Lemma validated_and_rejected_seen (page : Page) (description : string)
    (cache : gmap string (gmap string string)) (member : bool) (selector : string)
    (damage : Damage) (w : World) :
  selector <> "" ->
  page_dollar page (tick w) selector = Ok true ->
  validated_before_write page selector w
    (validated_and_rejected page description cache member selector damage w).
Proof.
  intros Hsel Hfound. split; [exact Hsel | split; [exact Hfound | ]].
  eexists. reflexivity.
Qed.

(** C1, as the code has it, for the iterations in which [page.content()]
    and [page.$()], which the resolver awaits outside its [try] block,
    resolve.  Such an iteration ends in one of three ways: it returns a
    selector that is not empty and that [page.$] has just found, and the
    loop returns it; it leaves the cache file alone and the loop goes on
    with the counter advanced; or the write of the cache, after [page.$]
    found the selector, is rejected, and that rejection ends the loop.  An
    iteration in which the model answers with an "ERROR:" text, or the model
    query fails (rate limiting included), or the candidate matches no
    element, is of the second kind.  After [maxRetries] iterations of the
    second kind the resolver throws the one error that names the
    description.  A resolution call in which no call of the page rejects
    ends with a validated selector, with that error after [maxRetries]
    failed iterations, or with the rejection of a cache write. *)
Theorem resolution_retries_then_validates_or_fails
    (page : Page) (description : string) (options : AILocatorOptions) (w : World) :
  let cache := stored_cache w in
  let budget := Z.to_nat (maxRetries options) in
  (forall retries remaining w0,
      match attempt page description cache retries w0 with
      | (Ok (Return selector), w') =>
          attempts (S remaining) page description cache retries w0 = (Ok selector, w') /\
          exists w1,
            candidate page description cache retries w0 = (Ok (Some selector), w1) /\
            validated_before_write page selector w1 w' /\
            fs_writeFile w1 (S (tick w1)) = Written
      | (Ok NextAttempt, w') =>
          attempts (S remaining) page description cache retries w0
          = attempts remaining page description cache (retries + 1) w' /\
          cache_file w' = cache_file w0
      | (Throw msg, w') =>
          ~ page_rejects page msg w' ->
          attempts (S remaining) page description cache retries w0 = (Throw msg, w') /\
          exists selector w1 damage,
            candidate page description cache retries w0 = (Ok (Some selector), w1) /\
            validated_before_write page selector w1 w' /\
            fs_writeFile w1 (S (tick w1)) = Rejected msg damage
      end)
  /\
  (forall retries remaining w0 html outcome w1,
      JS.truthy (cached_selector cache (page_url page) description) && (retries =? 0) = false ->
      page_content page (tick w0) = Ok html ->
      queryGeminiAPI (build_prompt description html) (record EvPageContent w0)
      = (outcome, w1) ->
      (exists response, outcome = Ok response /\ String.prefix "ERROR:" response = true) \/
      (exists msg, outcome = Throw msg) ->
      attempts (S remaining) page description cache retries w0
      = attempts remaining page description cache (retries + 1) w1)
  /\
  (forall retries remaining w0 selector w1,
      candidate page description cache retries w0 = (Ok (Some selector), w1) ->
      selector <> "" ->
      page_dollar page (tick w1) selector = Ok false ->
      attempts (S remaining) page description cache retries w0
      = attempts remaining page description cache (retries + 1)
          (record (EvPageQuery selector (Ok false)) w1))
  /\
  (forall w',
      failed_attempts page description cache budget 0 w w' ->
      getAiSelector page description options w
      = (Throw ("Failed to generate a valid selector for description: " ++ description), w'))
  /\
  match getAiSelector page description options w with
  | (Ok selector, w') =>
      exists k w1 w2,
        (k < budget)%nat /\
        failed_attempts page description cache k 0 w w1 /\
        candidate page description cache (Z.of_nat k) w1 = (Ok (Some selector), w2) /\
        validated_before_write page selector w2 w' /\
        fs_writeFile w2 (S (tick w2)) = Written
  | (Throw msg, w') =>
      ~ page_rejects page msg w' ->
      msg = "Failed to generate a valid selector for description: " ++ description /\
      failed_attempts page description cache budget 0 w w'
      \/
      exists k w1 w2 selector damage,
        (k < budget)%nat /\
        failed_attempts page description cache k 0 w w1 /\
        candidate page description cache (Z.of_nat k) w1 = (Ok (Some selector), w2) /\
        validated_before_write page selector w2 w' /\
        fs_writeFile w2 (S (tick w2)) = Rejected msg damage
  end.
Proof.
  intros cache budget.
  repeat apply conj.
  - intros retries remaining w0.
    pose proof (attempt_cases page description cache retries w0) as Hcases.
    destruct (attempt page description cache retries w0) as [r w'] eqn:Hstep.
    inversion Hcases as [selector w1 Hcand Hsel Hfound Hwrite Heq
                        | wa Hfile Heq | msg wa Hfile Hun Heq
                        | msg damage selector w1 Hcand Hsel Hfound Hwrite Heq]; subst.
    + split; [now apply attempts_return | ].
      exists w1. split; [exact Hcand | split; [ | exact Hwrite]].
      now apply validated_and_saved_seen.
    + split; [now apply attempts_next | exact Hfile].
    + intros Hnot. contradiction.
    + intros _. split; [now apply attempts_throw | ].
      exists selector, w1, damage. split; [exact Hcand | split; [ | exact Hwrite]].
      now apply validated_and_rejected_seen.
  - intros retries remaining w0 html outcome w1 Hguard Hhtml Hquery Hkind.
    apply attempts_next.
    rewrite attempt_unfold, (candidate_from_model _ _ _ _ Hguard).
    rewrite (ask_model_unfold page description w0 html Hhtml), Hquery.
    destruct Hkind as [[response [-> Herror]] | [msg ->]].
    + rewrite Herror. reflexivity.
    + reflexivity.
  - intros retries remaining w0 selector w1 Hcand Hsel Hnone.
    apply attempts_next.
    rewrite attempt_unfold, Hcand, (validate_no_match _ _ _ _ _ _ Hnone).
    rewrite (truthy_some selector Hsel). reflexivity.
  - intros w' Hfailed. rewrite getAiSelector_unfold.
    fold cache. fold budget.
    replace budget with (budget + 0)%nat by lia.
    rewrite (attempts_after_failures page description cache budget 0 0 w w' Hfailed).
    reflexivity.
  - pose proof (attempts_outcome page description cache budget 0 w) as Hall.
    rewrite getAiSelector_unfold. fold cache. fold budget.
    destruct (attempts budget page description cache 0 w) as [r w'].
    inversion Hall as [k selector w1 w2 Hk Hfailed Hcand Hsel Hfound Hwrite
                      | wa Hfailed
                      | k msg w1 wa Hk Hfailed Hthrow Hfile Hun
                      | k msg damage selector w1 w2 Hk Hfailed Hcand Hsel Hfound Hwrite];
      subst.
    + exists k, w1, w2.
      split; [exact Hk | split; [exact Hfailed | split; [exact Hcand | split]]].
      * now apply validated_and_saved_seen.
      * exact Hwrite.
    + intros _. left. split; [reflexivity | exact Hfailed].
    + intros Hnot. contradiction.
    + intros _. right. exists k, w1, w2, selector, damage.
      split; [exact Hk | split; [exact Hfailed | split; [exact Hcand | split]]].
      * now apply validated_and_rejected_seen.
      * exact Hwrite.
Qed.

(** C1 as stated fails.  On a disk that refuses the write, the first
    iteration gets a selector from the model, finds it on the page and then
    ends with the rejection of the cache write: it neither returns nor
    advances the counter, and the resolver, with a budget of 3, ends after
    this one iteration with an error that is not the descriptive one.  The
    same happens when the model names a selector that [page.$] cannot parse:
    [page.$] rejects, nothing catches the rejection, and the call ends after
    one iteration, although the comment of line 155 and the warning of line
    165 count an invalid selector among the candidates to retry. *)
Lemma rejection_outside_try_ends_resolution :
  let w := Examples.read_only
             (Examples.world (Some "AIza-key") None FileAbsent
                (fun _ _ => Examples.answer 200 None "h1.title")) in
  let v := Examples.world (Some "AIza-key") None FileAbsent
             (fun _ _ => Examples.answer 200 None "div[") in
  fst (attempt Examples.phil_qa "page header text" (stored_cache w) 0 w)
  = Throw "EROFS: read-only file system, open 'ai-selector-cache.json'" /\
  maxRetries Examples.no_options = 3 /\
  fst (getAiSelector Examples.phil_qa "page header text" Examples.no_options w)
  = Throw "EROFS: read-only file system, open 'ai-selector-cache.json'" /\
  count is_fetch (snd (getAiSelector Examples.phil_qa "page header text"
                         Examples.no_options w))
  = 1%nat /\
  fst (getAiSelector Scenarios.playwright_page "page header text" Examples.no_options v)
  = Throw "page.$: Unexpected token while parsing selector" /\
  count is_fetch (snd (getAiSelector Scenarios.playwright_page "page header text"
                         Examples.no_options v))
  = 1%nat.
Proof. vm_compute. repeat split. Qed.

Lemma resolution_witness :
  let w := Examples.world (Some "AIza-key") None FileAbsent Examples.moody_backend in
  let d := "page header text" in
  let cache := stored_cache w in
  let w1 := snd (attempt Examples.phil_qa d cache 0 w) in
  let w2 := snd (attempt Examples.phil_qa d cache 1 w1) in
  let w3 := snd (attempt Examples.phil_qa d cache 2 w2) in
  attempts 3 Examples.phil_qa d cache 0 w = attempts 2 Examples.phil_qa d cache (0 + 1) w1 /\
  attempts 2 Examples.phil_qa d cache 1 w1 = attempts 1 Examples.phil_qa d cache (1 + 1) w2 /\
  attempts 1 Examples.phil_qa d cache 2 w2 = attempts 0 Examples.phil_qa d cache (2 + 1) w3 /\
  getAiSelector Examples.phil_qa d (mkOptions None (Some 3) None) w
  = (Throw "Failed to generate a valid selector for description: page header text", w3) /\
  match getAiSelector Examples.phil_qa d (mkOptions None (Some 4) None) w with
  | (Ok selector, w') =>
      selector = "h1.title" /\
      exists w0, validated_before_write Examples.phil_qa selector w0 w'
  | (Throw _, _) => False
  end.
Proof.
  intros w d cache w1 w2 w3.
  pose proof (resolution_retries_then_validates_or_fails
                Examples.phil_qa d (mkOptions None (Some 3) None) w)
    as [_ [Hmodel [Hnone [Hexhausted _]]]].
  pose proof (resolution_retries_then_validates_or_fails
                Examples.phil_qa d (mkOptions None (Some 4) None) w)
    as [_ [_ [_ [_ Hvalid]]]].
  split; [ | split; [ | split; [ | split]]].
  - refine (Hmodel 0 2%nat w "<html>...</html>" (Throw rate_limit_message) w1 _ _ _ _).
    + vm_compute; reflexivity.
    + vm_compute; reflexivity.
    + vm_compute; reflexivity.
    + right. exists rate_limit_message. reflexivity.
  - refine (Hmodel 1 1%nat w1 "<html>...</html>"
              (Ok "ERROR: Unable to determine selector") w2 _ _ _ _).
    + vm_compute; reflexivity.
    + vm_compute; reflexivity.
    + vm_compute; reflexivity.
    + left. exists "ERROR: Unable to determine selector". split; reflexivity.
  - refine (Hnone 2 0%nat w2 ".missing"
              (snd (candidate Examples.phil_qa d cache 2 w2)) _ _ _).
    + vm_compute; reflexivity.
    + discriminate.
    + vm_compute; reflexivity.
  - refine (Hexhausted w3 _).
    apply (failed_again _ _ _ _ _ w w1 w3); [vm_compute; reflexivity | ].
    apply (failed_again _ _ _ _ _ w1 w2 w3); [vm_compute; reflexivity | ].
    apply (failed_again _ _ _ _ _ w2 w3 w3); [vm_compute; reflexivity | ].
    apply failed_none.
  - cbv zeta in Hvalid.
    assert (Hfst : fst (getAiSelector Examples.phil_qa d (mkOptions None (Some 4) None) w)
                   = Ok "h1.title") by (vm_compute; reflexivity).
    destruct (getAiSelector Examples.phil_qa d (mkOptions None (Some 4) None) w)
      as [[selector | msg] w'] eqn:Hrun.
    + destruct Hvalid as [k [wa [wb [_ [_ [_ [Hseen _]]]]]]].
      split; [ | exists wb; exact Hseen].
      cbn in Hfst. congruence.
    + discriminate.
Defined.

(** ** Selector cache: one selector per pair, written after validation *)

Section CacheEntries.

Variable cache : gmap string (gmap string string).
Variables pageUrl description selector : string.

Lemma assign_entry_other (entries : gmap string string) (description' : string) :
  description <> description' ->
  assign_entry entries description selector !! description' = entries !! description'.
Proof.
  intros Hother. unfold assign_entry.
  destruct (entries !! description).
  - now apply lookup_insert_ne.
  - destruct (String.eqb description "__proto__"); [reflexivity | ].
    now apply lookup_insert_ne.
Qed.

Lemma assign_entry_same (entries : gmap string string) :
  assign_entry entries description selector !! description = Some selector \/
  assign_entry entries description selector = entries /\
  entries !! description = None /\ description = "__proto__".
Proof.
  unfold assign_entry.
  destruct (entries !! description) eqn:Hown.
  - left. apply lookup_insert_eq.
  - destruct (String.eqb_spec description "__proto__") as [Hproto | Hproto].
    + right. repeat split. exact Hproto.
    + left. apply lookup_insert_eq.
Qed.

Lemma assign_entry_stored (entries : gmap string string) :
  description <> "__proto__" ->
  assign_entry entries description selector !! description = Some selector.
Proof.
  intros Hproto.
  destruct (assign_entry_same entries) as [Hput | [_ [_ Hname]]];
    [exact Hput | contradiction].
Qed.

Lemma cache_put_lookup (pageUrl' : string) :
  cache_put cache pageUrl description selector !! pageUrl'
  = if decide (pageUrl = pageUrl')
    then Some (assign_entry (default ∅ (cache !! pageUrl)) description selector)
    else cache !! pageUrl'.
Proof.
  unfold cache_put. rewrite lookup_insert.
  destruct (decide (pageUrl = pageUrl')); [ | reflexivity].
  destruct (cache !! pageUrl); reflexivity.
Qed.

Lemma own_selector_put_other (pageUrl' description' : string) :
  (pageUrl', description') <> (pageUrl, description) ->
  own_selector (cache_put cache pageUrl description selector) pageUrl' description'
  = own_selector cache pageUrl' description'.
Proof.
  intros Hother. unfold own_selector. rewrite cache_put_lookup.
  destruct (decide (pageUrl = pageUrl')) as [<- | Hurl]; [ | reflexivity].
  assert (Hdesc : description <> description') by congruence.
  rewrite (assign_entry_other _ _ Hdesc).
  destruct (cache !! pageUrl); [reflexivity | apply lookup_empty].
Qed.

Lemma own_selector_put_same :
  own_selector (cache_put cache pageUrl description selector) pageUrl description
  = Some selector \/
  own_selector (cache_put cache pageUrl description selector) pageUrl description = None /\
  own_selector cache pageUrl description = None /\ description = "__proto__".
Proof.
  unfold own_selector. rewrite cache_put_lookup.
  rewrite (decide_True (P := pageUrl = pageUrl)) by reflexivity.
  destruct (assign_entry_same (default ∅ (cache !! pageUrl))) as [Hput | [Hsame [Hnone Hname]]].
  - left. exact Hput.
  - right. rewrite Hsame. split; [exact Hnone | split; [ | exact Hname]].
    destruct (cache !! pageUrl); [exact Hnone | reflexivity].
Qed.


Lemma own_selector_put_inv (pageUrl' description' s : string) :
  own_selector (cache_put cache pageUrl description selector) pageUrl' description' = Some s ->
  own_selector cache pageUrl' description' = Some s \/
  pageUrl' = pageUrl /\ description' = description /\ s = selector.
Proof.
  destruct (decide ((pageUrl', description') = (pageUrl, description))) as [Heq | Hother].
  - injection Heq as -> ->.
    destruct own_selector_put_same as [Hput | [Hnone _]].
    + rewrite Hput. intros Hs. injection Hs as <-. right. repeat split.
    + rewrite Hnone. discriminate.
  - rewrite (own_selector_put_other _ _ Hother). intros Hs. left. exact Hs.
Qed.




End CacheEntries.

Lemma stored_cache_saved (page : Page) (description : string)
    (cache : gmap string (gmap string string)) (member : bool) (selector : string)
    (w : World) :
  cache_file (validated_and_saved page description cache member selector w)
  = overwritten (CacheDocument (cache_to_save page description cache member selector))
      (cache_file w).
Proof. reflexivity. Qed.

Lemma overwritten_readable (doc : Document) (before : FileState) :
  before <> FileUnreadable -> overwritten doc before = FileHolds doc.
Proof. destruct before; [reflexivity | contradiction | reflexivity]. Qed.

Lemma stored_overwritten (c : gmap string (gmap string string)) (before : FileState)
    (w : World) :
  cache_file w = overwritten (CacheDocument c) before ->
  stored_cache w = c \/ stored_cache w = ∅.
Proof.
  intros Hfile. unfold stored_cache. rewrite Hfile.
  destruct before; [left | right | left]; reflexivity.
Qed.

Lemma stored_torn (text : string) (before : FileState) (w : World) :
  cache_file w = overwritten (Unparseable text) before ->
  stored_cache w = ∅.
Proof.
  intros Hfile. unfold stored_cache. rewrite Hfile.
  destruct before; reflexivity.
Qed.

Lemma own_selector_to_save (page : Page) (description : string)
    (cache : gmap string (gmap string string)) (member : bool) (selector : string)
    (u d s : string) :
  own_selector (cache_to_save page description cache member selector) u d = Some s ->
  own_selector cache u d = Some s \/
  u = page_url page /\ d = description /\ s = selector.
Proof.
  unfold cache_to_save. destruct member; [intros Hs; left; exact Hs | ].
  apply own_selector_put_inv.
Qed.

Lemma own_selector_empty (u d : string) : own_selector ∅ u d = None.
Proof. unfold own_selector. rewrite lookup_empty. reflexivity. Qed.

Lemma stored_cache_kept (w w' : World) :
  cache_file w' = cache_file w -> stored_cache w' = stored_cache w.
Proof. intros Hfile. unfold stored_cache. rewrite Hfile. reflexivity. Qed.

(** C2. A resolution call changes the cache file only by a write that comes
    just after [page.$] found a non-empty selector; a call that returns a
    selector made exactly that write, and the file, when it can be read,
    then holds what was written.  Every selector that the file holds after
    the call was either held before the call or is, for the page URL and the
    description of the call, the selector that was so validated: a candidate
    that failed validation is never cached, and the iteration that tried it
    writes nothing.  The cache holds one selector per pair: the update sets
    the own property of the pair and leaves every other pair alone. *)
Theorem cache_written_only_after_validation
    (page : Page) (description : string) (options : AILocatorOptions)
    (w w' : World) (outcome : Res string) :
  getAiSelector page description options w = (outcome, w') ->
  let url := page_url page in
  (cache_file w' = cache_file w \/
   exists selector w1, validated_before_write page selector w1 w')
  /\
  (forall selector,
      outcome = Ok selector ->
      selector <> "" /\
      exists w1 c,
        page_dollar page (tick w1) selector = Ok true /\
        trace w' = EvWriteFile c :: EvPageQuery selector (Ok true) :: trace w1 /\
        (cache_file w <> FileUnreadable -> cache_file w' = FileHolds (CacheDocument c)))
  /\
  (forall u d s,
      own_selector (stored_cache w') u d = Some s ->
      own_selector (stored_cache w) u d = Some s \/
      u = url /\ d = description /\
      exists w1, validated_before_write page s w1 w')
  /\
  (forall cache retries w0 selector w1,
      candidate page description cache retries w0 = (Ok (Some selector), w1) ->
      selector <> "" ->
      page_dollar page (tick w1) selector = Ok false ->
      attempt page description cache retries w0
      = (Ok NextAttempt, record (EvPageQuery selector (Ok false)) w1))
  /\
  (forall cache selector,
      (own_selector (cache_put cache url description selector) url description
       = Some selector \/
       own_selector (cache_put cache url description selector) url description = None /\
       own_selector cache url description = None /\ description = "__proto__") /\
      forall u d,
        (u, d) <> (url, description) ->
        own_selector (cache_put cache url description selector) u d
        = own_selector cache u d).
Proof.
  intros Hrun url. subst url.
  assert (Hput : forall cache selector,
             (own_selector (cache_put cache (page_url page) description selector)
                (page_url page) description = Some selector \/
              own_selector (cache_put cache (page_url page) description selector)
                (page_url page) description = None /\
              own_selector cache (page_url page) description = None /\
              description = "__proto__") /\
             forall u d,
               (u, d) <> (page_url page, description) ->
               own_selector (cache_put cache (page_url page) description selector) u d
               = own_selector cache u d).
  { intros cache selector. split.
    - apply own_selector_put_same.
    - apply own_selector_put_other. }
  assert (Hdiscard : forall cache retries w0 selector w1,
             candidate page description cache retries w0 = (Ok (Some selector), w1) ->
             selector <> "" ->
             page_dollar page (tick w1) selector = Ok false ->
             attempt page description cache retries w0
             = (Ok NextAttempt, record (EvPageQuery selector (Ok false)) w1)).
  { intros cache retries w0 selector w1 Hcand Hsel Hnone.
    rewrite attempt_unfold, Hcand, (validate_no_match _ _ _ _ _ _ Hnone).
    rewrite (truthy_some selector Hsel). reflexivity. }
  pose proof (attempts_outcome page description (stored_cache w)
                (Z.to_nat (maxRetries options)) 0 w) as Hall.
  rewrite <- getAiSelector_unfold, Hrun in Hall.
  inversion Hall as [k selector w1 w2 Hk Hfailed Hcand Hsel Hfound Hwrite
                    | wa Hfailed
                    | k msg w1 wa Hk Hfailed Hthrow Hfile Hun
                    | k msg damage selector w1 w2 Hk Hfailed Hcand Hsel Hfound Hwrite];
    subst.
  - pose proof (failed_attempts_disk page description (stored_cache w) k 0 w w1 Hfailed)
      as Hfile1.
    pose proof (candidate_disk page description (stored_cache w) (0 + Z.of_nat k) w1)
      as Hfile2.
    rewrite Hcand in Hfile2. cbn [snd] in Hfile2.
    split; [ | split; [ | split; [ | split; [exact Hdiscard | exact Hput]]]].
    + right. exists selector, w2. now apply validated_and_saved_seen.
    + intros sel Heq. injection Heq as <-. split; [exact Hsel | ].
      eexists w2, _. split; [exact Hfound | split; [reflexivity | ]].
      intros Hreadable. rewrite stored_cache_saved.
      apply overwritten_readable. congruence.
    + intros u d s Hs.
      destruct (stored_overwritten _ _ _ (stored_cache_saved page description
                  (stored_cache w)
                  (member_candidate page description (stored_cache w) (0 + Z.of_nat k))
                  selector w2)) as [Hstored | Hstored];
        rewrite Hstored in Hs.
      * apply own_selector_to_save in Hs as [Hold | [-> [-> ->]]].
        -- left. exact Hold.
        -- right. repeat split. exists w2. now apply validated_and_saved_seen.
      * rewrite own_selector_empty in Hs. discriminate.
  - pose proof (failed_attempts_disk page description (stored_cache w) _ 0 w w' Hfailed)
      as Hfile.
    split; [ | split; [ | split; [ | split; [exact Hdiscard | exact Hput]]]].
    + left. exact Hfile.
    + intros sel Heq. discriminate.
    + intros u d s Hs. left. rewrite <- (stored_cache_kept w w' Hfile). exact Hs.
  - pose proof (failed_attempts_disk page description (stored_cache w) k 0 w w1 Hfailed)
      as Hfile1.
    assert (Hsame : cache_file w' = cache_file w) by congruence.
    split; [ | split; [ | split; [ | split; [exact Hdiscard | exact Hput]]]].
    + left. exact Hsame.
    + intros sel Heq. discriminate.
    + intros u d s Hs. left. rewrite <- (stored_cache_kept w w' Hsame). exact Hs.
  - pose proof (failed_attempts_disk page description (stored_cache w) k 0 w w1 Hfailed)
      as Hfile1.
    pose proof (candidate_disk page description (stored_cache w) (0 + Z.of_nat k) w1)
      as Hfile2.
    rewrite Hcand in Hfile2. cbn [snd] in Hfile2.
    split; [ | split; [ | split; [ | split; [exact Hdiscard | exact Hput]]]].
    + right. exists selector, w2. now apply validated_and_rejected_seen.
    + intros sel Heq. discriminate.
    + intros u d s Hs.
      set (w' := validated_and_rejected page description (stored_cache w)
                   (member_candidate page description (stored_cache w) (0 + Z.of_nat k))
                   selector damage w2) in *.
      destruct damage as [ | text | ].
      * left.
        assert (Hkept : cache_file w' = cache_file w)
          by (exact (eq_trans Hfile2 Hfile1)).
        rewrite <- (stored_cache_kept w w' Hkept). exact Hs.
      * rewrite (stored_torn text (cache_file w2) w' eq_refl) in Hs.
        rewrite own_selector_empty in Hs. discriminate.
      * destruct (stored_overwritten _ (cache_file w2) w' eq_refl) as [Hstored | Hstored];
          rewrite Hstored in Hs.
        -- apply own_selector_to_save in Hs as [Hold | [-> [-> ->]]].
           ++ left. exact Hold.
           ++ right. repeat split. exists w2. now apply validated_and_rejected_seen.
        -- rewrite own_selector_empty in Hs. discriminate.
Qed.

Lemma cache_written_witness :
  let w := Examples.world (Some "AIza-key") None FileAbsent
             (fun _ _ => Examples.answer 200 None " h1.title ") in
  let w' := snd (getAiSelector Examples.phil_qa "page header text" Examples.no_options w) in
  (exists w1 c,
      page_dollar Examples.phil_qa (tick w1) "h1.title" = Ok true /\
      trace w' = EvWriteFile c :: EvPageQuery "h1.title" (Ok true) :: trace w1 /\
      cache_file w' = FileHolds (CacheDocument c)) /\
  cache_file w'
  = FileHolds (CacheDocument {[ "https://phil.qa/" := {[ "page header text" := "h1.title" ]} ]}).
Proof.
  intros w w'.
  destruct (cache_written_only_after_validation
              Examples.phil_qa "page header text" Examples.no_options w w'
              (Ok "h1.title") ltac:(vm_compute; reflexivity))
    as [_ [Hreturned _]].
  destruct (Hreturned "h1.title" eq_refl) as [_ [w1 [c [Hfound [Htrace Hfile]]]]].
  split; [ | vm_compute; reflexivity].
  exists w1, c. split; [exact Hfound | split; [exact Htrace | ]].
  apply Hfile. discriminate.
Defined.

(** ** Cache hits *)






(** ** Highlighting *)

Lemma alter_found {A : Type} (f : A -> A) (l : list A) (i : nat) (x : A) :
  l !! i = Some x -> alter f i l = <[i := f x]> l.
Proof.
  revert i. induction l as [ | a l IH]; intros [ | i]; cbn; try discriminate.
  - intros Heq. injection Heq as ->. reflexivity.
  - intros Hthere. f_equal. now apply IH.
Qed.

Section Highlight.

Variable page : Page.
Variable i : nat.
Variable element : Element.
Variable elements : list Element.
Hypothesis Hthere : elements !! i = Some element.

Lemma highlight_styles_applied :
  alter (assigned page "zIndex" "10000") i
    (alter (assigned page "outline" "3px solid red") i elements)
  = <[i := mkElement (markup element) (highlighted_style page (style element))]> elements.
Proof.
  rewrite list_alter_alter_eq, (alter_found _ _ _ _ Hthere). reflexivity.
Qed.

Lemma highlight_styles_restored :
  alter (assigned page "zIndex" (style_get page (style element) "zIndex")) i
    (alter (assigned page "outline" (style_get page (style element) "outline")) i
       (alter (assigned page "zIndex" "10000") i
          (alter (assigned page "outline" "3px solid red") i elements)))
  = <[i := mkElement (markup element) (restored_style page (style element))]> elements.
Proof.
  rewrite !list_alter_alter_eq, (alter_found _ _ _ _ Hthere). reflexivity.
Qed.

End Highlight.

Lemma highlight_script_found (page : Page) (selector : string) (dur : Z) (w : World)
    (matches : Element -> bool) (i : nat) (element : Element) :
  css_matches page selector = Some matches ->
  list_find (fun e => Is_true (matches e)) (document w) = Some (i, element) ->
  exists w',
    highlight_script page selector dur w = (Ok tt, w') /\
    trace w' = EvStyle i "zIndex" (style_get page (style element) "zIndex")
               :: EvStyle i "outline" (style_get page (style element) "outline")
               :: EvPageTimer dur
               :: EvStyle i "zIndex" "10000"
               :: EvStyle i "outline" "3px solid red"
               :: trace w /\
    document w'
    = <[i := mkElement (markup element) (restored_style page (style element))]> (document w) /\
    cache_file w' = cache_file w /\
    tokenCache w' = tokenCache w /\
    same_surroundings w w'.
Proof.
  intros Hcss Hfind.
  assert (Hthere : document w !! i = Some element).
  { apply list_find_Some in Hfind. tauto. }
  eexists. split.
  - unfold highlight_script, bind at 1. unfold querySelector. rewrite Hcss, Hfind.
    unfold apply_highlight, restore_highlight, bind, assign_style, setTimeout, ret.
    cbn [fst snd]. reflexivity.
  - cbn [trace document cache_file tokenCache record set_document].
    split; [reflexivity | split; [ | split; [reflexivity | split; [reflexivity | ]]]].
    + exact (highlight_styles_restored page i element (document w) Hthere).
    + unfold same_surroundings. cbn. repeat split; reflexivity.
Qed.

(** C8, as the code has it.  After a resolution that returned [selector]:
    when [document.querySelector] takes the selector and finds an element,
    the script reads the element's [style.outline] and [style.zIndex],
    assigns the highlight values to the two, sets a timer of
    [highlightDuration] milliseconds (3000 when the option is absent or 0)
    and then assigns the two values it read, in this order and to this
    element only; the element's inline style is then what the browser makes
    of these four assignments, and every other element, the cache file and
    the token cache are as the resolution left them.  When it takes the
    selector and finds no element, the operation resolves and the world is
    what the resolution left.  When it does not take the selector, the
    operation rejects and assigns nothing. *)
Theorem highlight_saves_and_restores_styles
    (page : Page) (description : string) (options : AILocatorOptions)
    (w w1 : World) (selector : string) :
  getAiSelector page description options w = (Ok selector, w1) ->
  let dur := highlight_duration options in
  (forall matches i element,
      css_matches page selector = Some matches ->
      list_find (fun e => Is_true (matches e)) (document w1) = Some (i, element) ->
      let originalOutline := style_get page (style element) "outline" in
      let originalZIndex := style_get page (style element) "zIndex" in
      exists highlighted w',
        apply_highlight page i element w1
        = (Ok (originalOutline, originalZIndex), highlighted) /\
        document highlighted
        = <[i := mkElement (markup element)
                   (style_set page "zIndex" "10000"
                      (style_set page "outline" "3px solid red" (style element)))]>
            (document w1) /\
        highlightAILocator page description options w = (Ok tt, w') /\
        trace w' = EvStyle i "zIndex" originalZIndex
                   :: EvStyle i "outline" originalOutline
                   :: EvPageTimer dur
                   :: EvStyle i "zIndex" "10000"
                   :: EvStyle i "outline" "3px solid red"
                   :: trace w1 /\
        document w'
        = <[i := mkElement (markup element)
                   (style_set page "zIndex" originalZIndex
                      (style_set page "outline" originalOutline
                         (style_set page "zIndex" "10000"
                            (style_set page "outline" "3px solid red"
                               (style element)))))]> (document w1) /\
        (forall j, j <> i -> document w' !! j = document w1 !! j) /\
        cache_file w' = cache_file w1 /\
        tokenCache w' = tokenCache w1)
  /\
  (forall matches,
      css_matches page selector = Some matches ->
      list_find (fun e => Is_true (matches e)) (document w1) = None ->
      highlightAILocator page description options w = (Ok tt, w1))
  /\
  (css_matches page selector = None ->
   exists msg, highlightAILocator page description options w = (Throw msg, w1))
  /\
  (highlightDuration options = None \/ highlightDuration options = Some 0 -> dur = 3000)
  /\
  (forall d, highlightDuration options = Some d -> d <> 0 -> dur = d).
Proof.
  intros Hresolved dur.
  split; [ | split; [ | split; [ | split]]].
  - intros matches i element Hcss Hfind originalOutline originalZIndex.
    destruct (highlight_script_found page selector dur w1 matches i element Hcss Hfind)
      as [w' [Hrun [Htrace [Hdoc [Hfile [Htoken _]]]]]].
    assert (Hthere : document w1 !! i = Some element).
    { apply list_find_Some in Hfind. tauto. }
    eexists _, w'. split; [reflexivity | split].
    { cbn [snd document record set_document].
      exact (highlight_styles_applied page i element (document w1) Hthere). }
    split; [ | split; [exact Htrace | split; [exact Hdoc | split; [ | split]]]].
    + unfold highlightAILocator, bind. rewrite Hresolved. exact Hrun.
    + intros j Hj. rewrite Hdoc. apply list_lookup_insert_ne. congruence.
    + exact Hfile.
    + exact Htoken.
  - intros matches Hcss Hnone.
    unfold highlightAILocator, bind at 1. rewrite Hresolved.
    unfold highlight_script, bind, querySelector.
    rewrite Hcss, Hnone. reflexivity.
  - intros Hcss. eexists.
    unfold highlightAILocator, bind at 1. rewrite Hresolved.
    unfold highlight_script, bind, querySelector.
    rewrite Hcss. reflexivity.
  - intros [Hunset | Hzero]; unfold dur, highlight_duration.
    + rewrite Hunset. reflexivity.
    + rewrite Hzero. reflexivity.
  - intros d Hset Hd. unfold dur, highlight_duration. rewrite Hset. cbn.
    destruct (Z.eqb_spec d 0); [contradiction | reflexivity].
Qed.

Lemma highlight_witness :
  let w := Examples.world (Some "AIza-key") None FileAbsent
             (fun _ _ => Examples.answer 200 None "img.avatar") in
  let w1 := snd (getAiSelector Examples.phil_qa "profile image" Examples.no_options w) in
  (exists w',
      highlightAILocator Examples.phil_qa "profile image" Examples.no_options w
      = (Ok tt, w') /\
      trace w' = EvStyle 1 "zIndex" "2" :: EvStyle 1 "outline" ""
                 :: EvPageTimer 3000
                 :: EvStyle 1 "zIndex" "10000" :: EvStyle 1 "outline" "3px solid red"
                 :: trace w1 /\
      document w' !! 0%nat = Some Examples.header) /\
  highlight_duration (mkOptions None None (Some 500)) = 500.
Proof.
  intros w w1. split.
  - destruct (proj1 (highlight_saves_and_restores_styles
                       Examples.phil_qa "profile image" Examples.no_options w w1 "img.avatar"
                       ltac:(vm_compute; reflexivity))
                (fun e => (String.eqb "img.avatar" "h1.title"
                           && String.eqb (markup e) (markup Examples.header))
                          || (String.eqb "img.avatar" "img.avatar"
                              && String.eqb (markup e) (markup Examples.avatar)))%bool
                1%nat Examples.avatar eq_refl ltac:(vm_compute; reflexivity))
      as [highlighted [w' [_ [_ [Hrun [Htrace [_ [Hothers _]]]]]]]].
    exists w'. split; [exact Hrun | split; [exact Htrace | ]].
    rewrite (Hothers 0%nat) by discriminate. vm_compute; reflexivity.
  - refine (proj2 (proj2 (proj2 (proj2
             (highlight_saves_and_restores_styles
                Examples.phil_qa "profile image" (mkOptions None None (Some 500)) w w1
                "img.avatar" _)))) 500 _ _).
    + vm_compute; reflexivity.
    + reflexivity.
    + discriminate.
Defined.

(** C8 as stated fails in three ways.  A selector that [page.$] takes need
    not be one that [document.querySelector] takes: after a resolution that
    returned the text selector [text=phil.qa], the highlight operation
    rejects.  A configured duration of 0 is replaced by 3000.  And in a
    browser assigning the values that were read does not restore the inline
    style: the image, whose [style] attribute declared [outline-color] and
    an important [z-index], ends without the first and with the second no
    longer important, and the header, which had no [style] attribute, ends
    with an empty one. *)
Lemma highlight_is_not_a_frame :
  let asked := Examples.world (Some "AIza-key") None FileAbsent
                 (fun _ _ => Examples.answer 200 None "text=phil.qa") in
  let image := Examples.world (Some "AIza-key") None FileAbsent
                 (fun _ _ => Examples.answer 200 None "img.avatar") in
  let title := Examples.world (Some "AIza-key") None FileAbsent
                 (fun _ _ => Examples.answer 200 None "h1.title") in
  fst (getAiSelector Scenarios.playwright_page "page header text" Examples.no_options asked)
  = Ok "text=phil.qa" /\
  fst (highlightAILocator Scenarios.playwright_page "page header text"
         Examples.no_options asked)
  = Throw "SyntaxError: 'text=phil.qa' is not a valid selector" /\
  highlight_duration (mkOptions None None (Some 0)) = 3000 /\
  fst (highlightAILocator Examples.phil_qa "profile image" Examples.no_options image)
  = Ok tt /\
  document image !! 1%nat
  = Some (mkElement "<img class='avatar'>"
            (Some [mkDeclaration "outline-color" "blue" false;
                   mkDeclaration "z-index" "2" true])) /\
  document (snd (highlightAILocator Examples.phil_qa "profile image"
                   Examples.no_options image)) !! 1%nat
  = Some (mkElement "<img class='avatar'>" (Some [mkDeclaration "z-index" "2" false])) /\
  document title !! 0%nat = Some (mkElement "<h1 class='title'>phil.qa</h1>" None) /\
  document (snd (highlightAILocator Examples.phil_qa "page header text"
                   Examples.no_options title)) !! 0%nat
  = Some (mkElement "<h1 class='title'>phil.qa</h1>" (Some [])).
Proof. vm_compute. repeat split. Qed.

(** * Further properties of the module *)

(** ** Cache Store: saving and loading *)



Lemma assign_entry_twice (entries : gmap string string) (d s1 s2 : string) :
  assign_entry (assign_entry entries d s1) d s2 = assign_entry entries d s2.
Proof.
  destruct (assign_entry_same d s1 entries) as [Hput | [Hsame _]].
  - unfold assign_entry at 1. rewrite Hput.
    revert Hput. unfold assign_entry.
    destruct (entries !! d) eqn:Hown.
    + intros _. apply insert_insert_eq.
    + destruct (String.eqb d "__proto__").
      * rewrite Hown. discriminate.
      * intros _. apply insert_insert_eq.
  - rewrite Hsame. reflexivity.
Qed.

Lemma assign_entry_comm (entries : gmap string string) (d s d' s' : string) :
  d <> d' ->
  assign_entry (assign_entry entries d s) d' s'
  = assign_entry (assign_entry entries d' s') d s.
Proof.
  intros Hother.
  assert (Hother' : d' <> d) by congruence.
  unfold assign_entry at 1 3.
  rewrite (assign_entry_other d s entries d' Hother).
  rewrite (assign_entry_other d' s' entries d Hother').
  unfold assign_entry.
  destruct (entries !! d) eqn:Hd, (entries !! d') eqn:Hd';
    destruct (String.eqb d "__proto__"), (String.eqb d' "__proto__");
    try reflexivity; now apply insert_insert_ne.
Qed.

(** X2. Writing a pair again replaces its selector (the store keeps no
    history), and writes to two different pairs give the same store in
    either order. *)
Theorem cache_put_last_write_wins
    (cache : gmap string (gmap string string)) (u d s1 s2 u' d' : string) :
  cache_put (cache_put cache u d s1) u d s2 = cache_put cache u d s2 /\
  ((u, d) <> (u', d') ->
   cache_put (cache_put cache u d s1) u' d' s2
   = cache_put (cache_put cache u' d' s2) u d s1).
Proof.
  split.
  - apply map_eq. intros k. rewrite !cache_put_lookup.
    destruct (decide (u = k)); [ | reflexivity].
    rewrite (decide_True (P := u = u)) by reflexivity. cbn.
    rewrite assign_entry_twice. reflexivity.
  - intros Hpairs. apply map_eq. intros k. rewrite !cache_put_lookup.
    destruct (decide (u = u')) as [<- | Hurl].
    + rewrite !(decide_True (P := u = u)) by reflexivity. cbn.
      destruct (decide (u = k)); [ | reflexivity].
      f_equal. apply assign_entry_comm. congruence.
    + rewrite (decide_False (P := u' = u)) by congruence.
      destruct (decide (u' = k)) as [Hk' | Hk'], (decide (u = k)) as [Hk | Hk];
        try reflexivity; congruence.
Qed.

Lemma cache_put_witness :
  cache_put (cache_put ∅ "https://phil.qa/" "logo" "img.a") "https://phil.qa/" "title" "h1"
  = cache_put (cache_put ∅ "https://phil.qa/" "title" "h1") "https://phil.qa/" "logo" "img.a".
Proof.
  apply (proj2 (cache_put_last_write_wins ∅ "https://phil.qa/" "logo" "img.a" "h1"
                  "https://phil.qa/" "title")).
  discriminate.
Defined.

(** ** Credential Provider: the token cache *)

(** X3. A token that [getValidAccessToken] returns is the token the cache
    holds afterwards, and by its cached timestamp it is at most 59 minutes
    old at the time the call read the clock. *)
Theorem returned_token_is_cached_and_fresh (w w' : World) (t : string) :
  getValidAccessToken w = (Ok t, w') ->
  exists tc,
    tokenCache w' = Some tc /\ token tc = t /\
    Date_now w (tick w) - timestamp tc <= 59 * 60 * 1000.
Proof.
  unfold getValidAccessToken, refresh_token, bind, acquire_token.
  destruct (tokenCache w) as [tc | ] eqn:Hcached.
  - destruct (Z.gtb_spec (Date_now w (tick w) - timestamp tc) token_lifetime)
      as [Hstale | Hfresh].
    + destruct (auth_getAccessToken w (tick w)) as [newToken | msg]; [ | discriminate].
      intros Heq. injection Heq as <- <-.
      eexists. split; [reflexivity | split; [reflexivity | ]]. cbn. lia.
    + intros Heq. injection Heq as <- <-.
      exists tc. split; [exact Hcached | split; [reflexivity | ]].
      unfold token_lifetime in Hfresh. lia.
  - destruct (auth_getAccessToken w (tick w)) as [newToken | msg]; [ | discriminate].
    intros Heq. injection Heq as <- <-.
    eexists. split; [reflexivity | split; [reflexivity | ]]. cbn. lia.
Qed.

Lemma returned_token_witness :
  exists tc,
    tokenCache (snd (getValidAccessToken
                       (Examples.world None (Some (mkTokenCache "ya29.old" 100)) FileAbsent
                          (fun _ _ => Throw "offline"))))
    = Some tc /\ token tc = "ya29.fresh" /\ 4000000 - timestamp tc <= 59 * 60 * 1000.
Proof.
  apply (returned_token_is_cached_and_fresh
           (Examples.world None (Some (mkTokenCache "ya29.old" 100)) FileAbsent
              (fun _ _ => Throw "offline"))).
  vm_compute; reflexivity.
Defined.

Lemma token_failure_inv (w w' : World) (msg : string) :
  getValidAccessToken w = (Throw msg, w') ->
  auth_getAccessToken w (tick w) = Throw msg /\
  w' = record EvAcquireToken w /\
  tokenCache w' = tokenCache w.
Proof.
  unfold getValidAccessToken, refresh_token, bind, acquire_token.
  destruct (tokenCache w) as [tc | ] eqn:Hcached.
  - destruct (_ >? _); [ | discriminate].
    destruct (auth_getAccessToken w (tick w)) as [newToken | msg']; [discriminate | ].
    intros Heq. injection Heq as <- <-. repeat split. exact Hcached.
  - destruct (auth_getAccessToken w (tick w)) as [newToken | msg']; [discriminate | ].
    intros Heq. injection Heq as <- <-. repeat split. exact Hcached.
Qed.

(** X4. [getValidAccessToken] rejects only when the identity backend
    rejected the acquisition, with the backend's error; the token cache is
    then left as it was (a stale token is kept, nothing is cleared). *)
Theorem token_failure_is_the_acquisition_failure (w w' : World) (msg : string) :
  getValidAccessToken w = (Throw msg, w') ->
  auth_getAccessToken w (tick w) = Throw msg /\
  w' = record EvAcquireToken w /\
  tokenCache w' = tokenCache w.
Proof. apply token_failure_inv. Qed.

Lemma token_failure_witness :
  let w := Scenarios.no_credentials (Scenarios.token_mode (fun _ _ => Throw "offline")) in
  auth_getAccessToken w (tick w) = Throw "Could not load the default credentials." /\
  snd (getValidAccessToken w) = record EvAcquireToken w /\
  tokenCache (snd (getValidAccessToken w)) = tokenCache w.
Proof.
  intros w.
  apply (token_failure_is_the_acquisition_failure w (snd (getValidAccessToken w))).
  vm_compute; reflexivity.
Defined.

(** X5. After a call that acquired a token, a call that finds the token
    cache as the first left it and reads the clock at most 59 minutes later
    returns the same token and does nothing else: no second acquisition. *)
Theorem acquired_token_is_reused (w w1 w2 : World) (t : string) :
  (tokenCache w = None \/
   exists tc, tokenCache w = Some tc /\
              Date_now w (tick w) - timestamp tc > 59 * 60 * 1000) ->
  getValidAccessToken w = (Ok t, w1) ->
  tokenCache w2 = tokenCache w1 ->
  Date_now w2 (tick w2) - Date_now w (tick w) <= 59 * 60 * 1000 ->
  getValidAccessToken w2 = (Ok t, w2).
Proof.
  intros Hstale Hfirst Hkept Hsoon.
  assert (Hcache1 : tokenCache w1 = Some (mkTokenCache t (Date_now w (tick w)))).
  { revert Hfirst. unfold getValidAccessToken, refresh_token, bind, acquire_token.
    destruct Hstale as [-> | [tc [-> Hold]]].
    - destruct (auth_getAccessToken w (tick w)); [ | discriminate].
      intros Heq. injection Heq as <- <-. reflexivity.
    - destruct (Z.gtb_spec (Date_now w (tick w) - timestamp tc) token_lifetime)
        as [_ | Hfresh]; [ | unfold token_lifetime in Hfresh; lia].
      destruct (auth_getAccessToken w (tick w)); [ | discriminate].
      intros Heq. injection Heq as <- <-. reflexivity. }
  unfold getValidAccessToken. rewrite Hkept, Hcache1. cbn [timestamp token].
  destruct (Z.gtb_spec (Date_now w2 (tick w2) - Date_now w (tick w)) token_lifetime)
    as [Hlate | _]; [unfold token_lifetime in Hlate; lia | reflexivity].
Qed.

Lemma acquired_token_witness :
  let w := Scenarios.token_mode (fun _ _ => Throw "offline") in
  let w1 := snd (getValidAccessToken w) in
  getValidAccessToken w1 = (Ok "ya29.fresh", w1).
Proof.
  intros w w1.
  apply (acquired_token_is_reused w w1 w1 "ya29.fresh").
  - left. reflexivity.
  - vm_compute; reflexivity.
  - reflexivity.
  - vm_compute. discriminate.
Defined.

(** ** Strings: what [trim] leaves *)

Lemma string_of_list_ascii_app (l1 l2 : list ascii) :
  string_of_list_ascii (l1 ++ l2)
  = (string_of_list_ascii l1 ++ string_of_list_ascii l2)%string.
Proof.
  induction l1 as [ | c l1 IH]; [reflexivity | ].
  cbn [app string_of_list_ascii]. rewrite IH. reflexivity.
Qed.

Lemma list_ascii_of_string_app (s1 s2 : string) :
  list_ascii_of_string (s1 ++ s2)%string
  = (list_ascii_of_string s1 ++ list_ascii_of_string s2)%list.
Proof.
  induction s1 as [ | c s1 IH]; [reflexivity | ].
  change (String c s1 ++ s2)%string with (String c (s1 ++ s2)%string).
  cbn [list_ascii_of_string]. rewrite IH. reflexivity.
Qed.

Lemma reverse_involutive (s : string) : JS.reverse (JS.reverse s) = s.
Proof.
  unfold JS.reverse.
  rewrite list_ascii_of_string_of_list_ascii, List.rev_involutive.
  apply string_of_list_ascii_of_string.
Qed.

Lemma reverse_cons (c : ascii) (s : string) :
  JS.reverse (String c s) = (JS.reverse s ++ String c EmptyString)%string.
Proof.
  unfold JS.reverse. cbn [list_ascii_of_string List.rev].
  apply string_of_list_ascii_app.
Qed.

Lemma reverse_snoc (c : ascii) (s : string) :
  JS.reverse (s ++ String c EmptyString)%string = String c (JS.reverse s).
Proof.
  unfold JS.reverse. rewrite list_ascii_of_string_app, List.rev_app_distr.
  reflexivity.
Qed.

Lemma trimStart_no_space (s : string) : starts_with_space (JS.trimStart s) = false.
Proof.
  induction s as [ | c s IH]; [reflexivity | ].
  cbn [JS.trimStart]. destruct (JS.is_space c) eqn:Hc; [exact IH | ].
  cbn. exact Hc.
Qed.

Lemma trimStart_fixed (s : string) :
  starts_with_space s = false -> JS.trimStart s = s.
Proof.
  destruct s as [ | c s]; [reflexivity | ].
  cbn. intros ->. reflexivity.
Qed.

Lemma trimStart_snoc (c : ascii) (s : string) :
  JS.is_space c = false ->
  exists m, JS.trimStart (s ++ String c EmptyString)%string
            = (m ++ String c EmptyString)%string.
Proof.
  intros Hc. induction s as [ | a s IH].
  - exists EmptyString.
    change (EmptyString ++ String c EmptyString)%string with (String c EmptyString).
    cbn [JS.trimStart]. rewrite Hc. reflexivity.
  - change (String a s ++ String c EmptyString)%string
      with (String a (s ++ String c EmptyString)%string).
    cbn [JS.trimStart]. destruct (JS.is_space a).
    + exact IH.
    + exists (String a s). reflexivity.
Qed.

Lemma trimStart_all_spaces (s : string) :
  all_spaces s = true -> JS.trimStart s = EmptyString.
Proof.
  induction s as [ | c s IH]; [reflexivity | ].
  cbn. destruct (JS.is_space c); [exact IH | discriminate].
Qed.

Lemma trim_no_leading_space (s : string) : starts_with_space (JS.trim s) = false.
Proof.
  unfold JS.trim.
  pose proof (trimStart_no_space s) as Hstart.
  destruct (JS.trimStart s) as [ | c t]; [reflexivity | ].
  cbn in Hstart. rewrite reverse_cons.
  destruct (trimStart_snoc c (JS.reverse t) Hstart) as [m ->].
  rewrite reverse_snoc. exact Hstart.
Qed.

Lemma trim_no_trailing_space (s : string) : ends_with_space (JS.trim s) = false.
Proof.
  unfold ends_with_space, JS.trim. rewrite reverse_involutive.
  apply trimStart_no_space.
Qed.

Lemma trim_idempotent (s : string) : JS.trim (JS.trim s) = JS.trim s.
Proof.
  unfold JS.trim at 1.
  rewrite (trimStart_fixed _ (trim_no_leading_space s)).
  rewrite (trimStart_fixed _ (trim_no_trailing_space s)).
  apply reverse_involutive.
Qed.

Lemma trim_all_spaces (s : string) : all_spaces s = true -> JS.trim s = EmptyString.
Proof.
  intros Hs. unfold JS.trim. rewrite (trimStart_all_spaces s Hs). reflexivity.
Qed.

(** ** Model Client: how a query can end *)

Lemma read_response_ok_inv (response : Response) (w w' : World) (text : string) :
  read_response response w = (Ok text, w') ->
  res_status response <> 429 /\ res_ok response = true /\
  (exists raw, res_text response = Ok raw /\ text = JS.trim raw) /\ w' = w.
Proof.
  unfold read_response.
  destruct (Z.eqb_spec (res_status response) 429) as [H429 | H429]; [discriminate | ].
  destruct (res_ok response); [ | discriminate].
  destruct (res_text response) as [raw | msg]; [ | discriminate].
  intros Heq. injection Heq as <- <-.
  repeat split; [assumption | ]. exists raw. split; reflexivity.
Qed.

Lemma queryGeminiAPI_ok_inv (prompt : string) (w w' : World) (text : string) :
  queryGeminiAPI prompt w = (Ok text, w') ->
  exists req w1 response raw,
    select_endpoint prompt w = (Ok req, w1) /\
    fetch_backend w1 (tick w1) req = Ok response /\
    res_status response <> 429 /\ res_ok response = true /\
    res_text response = Ok raw /\ text = JS.trim raw /\
    w' = record (EvFetch req) w1.
Proof.
  destruct (select_endpoint prompt w) as [[req | msg] w1] eqn:Hsel.
  - rewrite (queryGeminiAPI_after_selection prompt w w1 req Hsel).
    destruct (fetch_backend w1 (tick w1) req) as [response | msg] eqn:Hfetch;
      [ | discriminate].
    intros Hread.
    apply read_response_ok_inv in Hread as [H429 [Hok [[raw [Hraw ->]] ->]]].
    exists req, w1, response, raw. repeat split; assumption.
  - unfold queryGeminiAPI, bind. rewrite Hsel. discriminate.
Qed.

(** X6. A query resolves only on a response whose status is in 200..299
    and whose body has the expected shape; what it returns is the trimmed
    first text of that body, and the call made exactly that one fetch after
    the endpoint was chosen, without any wait. *)
Theorem query_text_comes_from_ok_response
    (prompt : string) (w w' : World) (text : string) :
  queryGeminiAPI prompt w = (Ok text, w') ->
  exists req w1 response raw,
    select_endpoint prompt w = (Ok req, w1) /\
    fetch_backend w1 (tick w1) req = Ok response /\
    200 <= res_status response <= 299 /\
    res_text response = Ok raw /\ text = JS.trim raw /\
    trace w' = EvFetch req :: trace w1.
Proof.
  intros Hrun.
  destruct (queryGeminiAPI_ok_inv prompt w w' text Hrun)
    as [req [w1 [response [raw [Hsel [Hfetch [_ [Hok [Hraw [Htext ->]]]]]]]]]].
  exists req, w1, response, raw.
  unfold res_ok in Hok. apply andb_prop in Hok as [Hlow Hhigh].
  repeat split; try assumption; lia.
Qed.

Lemma query_text_witness :
  let w := Scenarios.key_mode (Scenarios.always 200 "OK" None (Ok "  h1.title
")) in
  exists req w1 response raw,
    select_endpoint "p" w = (Ok req, w1) /\
    fetch_backend w1 (tick w1) req = Ok response /\
    200 <= res_status response <= 299 /\
    res_text response = Ok raw /\ "h1.title" = JS.trim raw /\
    trace (snd (queryGeminiAPI "p" w)) = EvFetch req :: trace w1.
Proof.
  intros w.
  apply (query_text_comes_from_ok_response "p" w (snd (queryGeminiAPI "p" w)) "h1.title").
  vm_compute; reflexivity.
Defined.

(** X7. The text a query returns never begins or ends with white space,
    and trimming it again changes nothing: a candidate selector reaches
    [page.$] and the cache without surrounding blanks or line breaks. *)
Theorem query_text_has_no_surrounding_space
    (prompt : string) (w w' : World) (text : string) :
  queryGeminiAPI prompt w = (Ok text, w') ->
  starts_with_space text = false /\ ends_with_space text = false /\
  JS.trim text = text.
Proof.
  intros Hrun.
  destruct (queryGeminiAPI_ok_inv prompt w w' text Hrun)
    as [req [w1 [response [raw [_ [_ [_ [_ [_ [-> _]]]]]]]]]].
  split; [apply trim_no_leading_space | ].
  split; [apply trim_no_trailing_space | apply trim_idempotent].
Qed.

Lemma query_text_space_witness :
  let w := Scenarios.key_mode (Scenarios.always 200 "OK" None (Ok "  h1.title
")) in
  starts_with_space "h1.title" = false /\ ends_with_space "h1.title" = false /\
  JS.trim "h1.title" = "h1.title".
Proof.
  intros w.
  apply (query_text_has_no_surrounding_space "p" w (snd (queryGeminiAPI "p" w))).
  vm_compute; reflexivity.
Defined.

Lemma read_response_throw_inv (response : Response) (w w' : World) (msg : string) :
  read_response response w = (Throw msg, w') ->
  (res_status response = 429 /\ msg = rate_limit_message /\
   w' = record (EvWait (retry_delay response)) w) \/
  (res_status response <> 429 /\ res_ok response = false /\
   msg = "Gemini API request failed: " ++ res_statusText response /\ w' = w) \/
  (res_ok response = true /\ res_text response = Throw msg /\ w' = w).
Proof.
  unfold read_response.
  destruct (Z.eqb_spec (res_status response) 429) as [H429 | H429].
  - intros Heq. injection Heq as <- <-. left. repeat split. exact H429.
  - destruct (res_ok response).
    + destruct (res_text response) as [raw | msg']; [discriminate | ].
      intros Heq. injection Heq as <- <-. right. right. repeat split.
    + intros Heq. injection Heq as <- <-. right. left. repeat split. exact H429.
Qed.

(** X8. A query fails in one of five ways and no other: the token could
    not be acquired (then no request is sent), the fetch itself rejected,
    the status was 429 (the only case with a wait), the status was another
    one outside 200..299 (the error carries the status text), or the body
    of an accepted response did not have the expected shape. *)
Theorem query_failure_cases (prompt : string) (w w' : World) (msg : string) :
  queryGeminiAPI prompt w = (Throw msg, w') ->
  (getValidAccessToken w = (Throw msg, w') /\ count is_fetch w' = count is_fetch w)
  \/
  exists req w1,
    select_endpoint prompt w = (Ok req, w1) /\
    ((fetch_backend w1 (tick w1) req = Throw msg /\ w' = record (EvFetch req) w1)
     \/
     exists response,
       fetch_backend w1 (tick w1) req = Ok response /\
       ((res_status response = 429 /\
         msg = "Gemini API request failed due to rate limiting." /\
         w' = record (EvWait (retry_delay response)) (record (EvFetch req) w1))
        \/
        (res_status response <> 429 /\
         ~ 200 <= res_status response <= 299 /\
         msg = "Gemini API request failed: " ++ res_statusText response /\
         w' = record (EvFetch req) w1)
        \/
        (200 <= res_status response <= 299 /\
         res_text response = Throw msg /\
         w' = record (EvFetch req) w1))).
Proof.
  destruct (select_endpoint prompt w) as [[req | msg'] w1] eqn:Hsel.
  - rewrite (queryGeminiAPI_after_selection prompt w w1 req Hsel).
    intros Hrun. right. exists req, w1. split; [reflexivity | ].
    destruct (fetch_backend w1 (tick w1) req) as [response | msg'] eqn:Hfetch.
    + right. exists response. split; [reflexivity | ].
      apply read_response_throw_inv in Hrun
        as [[H429 [-> ->]] | [[H429 [Hbad [-> ->]]] | [Hok [Hbody ->]]]].
      * left. repeat split. exact H429.
      * right. left. repeat split; [exact H429 | ].
        unfold res_ok in Hbad. apply andb_false_iff in Hbad. lia.
      * right. right. unfold res_ok in Hok. apply andb_prop in Hok.
        repeat split; [lia | lia | exact Hbody].
    + injection Hrun as <- <-. left. split; reflexivity.
  - unfold queryGeminiAPI, bind. rewrite Hsel.
    intros Heq. injection Heq as <- <-. left.
    revert Hsel. unfold select_endpoint.
    destruct (JS.truthy (GOOGLE_CLOUD_VERTEX_AI_API_KEY w)); [discriminate | ].
    unfold bind.
    destruct (getValidAccessToken w) as [[tok | msg''] w2] eqn:Htoken; [discriminate | ].
    intros Heq. injection Heq as Hmsg Hworld. subst msg'' w2.
    split; [reflexivity | ].
    destruct (token_failure_inv w w1 msg' Htoken) as [_ [-> _]]. reflexivity.
Qed.

Lemma query_failure_witness :
  let w := Scenarios.key_mode
             (Scenarios.always 503 "Service Unavailable" None (Ok "")) in
  let msg := "Gemini API request failed: Service Unavailable" in
  let w' := snd (queryGeminiAPI "p" w) in
  (getValidAccessToken w = (Throw msg, w') /\ count is_fetch w' = count is_fetch w)
  \/
  exists req w1,
    select_endpoint "p" w = (Ok req, w1) /\
    ((fetch_backend w1 (tick w1) req = Throw msg /\ w' = record (EvFetch req) w1)
     \/
     exists response,
       fetch_backend w1 (tick w1) req = Ok response /\
       ((res_status response = 429 /\
         msg = "Gemini API request failed due to rate limiting." /\
         w' = record (EvWait (retry_delay response)) (record (EvFetch req) w1))
        \/
        (res_status response <> 429 /\
         ~ 200 <= res_status response <= 299 /\
         msg = "Gemini API request failed: " ++ res_statusText response /\
         w' = record (EvFetch req) w1)
        \/
        (200 <= res_status response <= 299 /\
         res_text response = Throw msg /\
         w' = record (EvFetch req) w1))).
Proof.
  intros w msg w'.
  apply (query_failure_cases "p" w w' msg).
  vm_compute; reflexivity.
Defined.

(** ** Model Client: the Retry-After header *)

Lemma parseInt_not_a_number (c : ascii) (rest : string) :
  JS.is_space c = false ->
  c <> "-"%char -> c <> "+"%char ->
  JS.digit_value 10 c = None ->
  JS.parseInt (String c rest) = None.
Proof.
  destruct c as [[] [] [] [] [] [] [] []];
    intros Hspace Hminus Hplus Hdigit;
    vm_compute in Hspace, Hdigit;
    first [ discriminate Hspace
          | discriminate Hdigit
          | exfalso; apply Hminus; reflexivity
          | exfalso; apply Hplus; reflexivity
          | reflexivity ].
Qed.

(** X9. On a 429 response whose Retry-After header is empty the delay is
    the default 30000 ms, as for an absent header.  When the header begins
    with a character that is neither white space, nor a sign, nor a decimal
    digit (the HTTP-date form of the header does), [parseInt] gives NaN:
    [wait] is called with NaN, and the rate-limit error is thrown all the
    same. *)
Theorem retry_after_that_is_not_a_number (response : Response) (w : World) :
  res_status response = 429 ->
  (res_retryAfter response = Some "" ->
   read_response response w
   = (Throw rate_limit_message, record (EvWait (Some 30000)) w))
  /\
  (forall c rest,
      res_retryAfter response = Some (String c rest) ->
      JS.is_space c = false ->
      c <> "-"%char -> c <> "+"%char ->
      JS.digit_value 10 c = None ->
      read_response response w
      = (Throw rate_limit_message, record (EvWait None) w)).
Proof.
  intros H429. split.
  - intros Hempty. unfold read_response. rewrite H429.
    unfold retry_delay. rewrite Hempty. reflexivity.
  - intros c rest Hheader Hspace Hminus Hplus Hdigit.
    unfold read_response. rewrite H429.
    unfold retry_delay. rewrite Hheader.
    change (JS.truthy (Some (String c rest))) with true.
    cbn [JS.interpolate].
    rewrite (parseInt_not_a_number c rest Hspace Hminus Hplus Hdigit).
    reflexivity.
Qed.

Lemma retry_after_witness :
  let w := Scenarios.key_mode (fun _ _ => Throw "offline") in
  read_response (mkResponse 429 "" (Some "") (Ok "")) w
  = (Throw rate_limit_message, record (EvWait (Some 30000)) w) /\
  read_response (mkResponse 429 "" (Some "Wed, 21 Oct 2026 07:28:00 GMT") (Ok "")) w
  = (Throw rate_limit_message, record (EvWait None) w).
Proof.
  intros w. split.
  - apply (proj1 (retry_after_that_is_not_a_number
                    (mkResponse 429 "" (Some "") (Ok "")) w eq_refl)).
    reflexivity.
  - apply (proj2 (retry_after_that_is_not_a_number
                    (mkResponse 429 "" (Some "Wed, 21 Oct 2026 07:28:00 GMT") (Ok ""))
                    w eq_refl) "W"%char "ed, 21 Oct 2026 07:28:00 GMT").
    + reflexivity.
    + reflexivity.
    + discriminate.
    + discriminate.
    + reflexivity.
Defined.

(** ** Selector Resolver: how much a resolution costs *)


Lemma effects_within_trans (f1 a1 q1 r1 f2 a2 q2 r2 : nat) (w w1 w2 : World) :
  effects_within f1 a1 q1 r1 w w1 ->
  effects_within f2 a2 q2 r2 w1 w2 ->
  effects_within (f1 + f2) (a1 + a2) (q1 + q2) (r1 + r2) w w2.
Proof. unfold effects_within. lia. Qed.

Lemma effects_within_weaken (f a q r f' a' q' r' : nat) (w w' : World) :
  effects_within f a q r w w' ->
  (f <= f')%nat -> (a <= a')%nat -> (q <= q')%nat -> (r <= r')%nat ->
  effects_within f' a' q' r' w w'.
Proof. unfold effects_within. lia. Qed.

Ltac tally := unfold effects_within, count; cbn; lia.

Lemma getValidAccessToken_effects (w : World) :
  effects_within 0 1 0 0 w (snd (getValidAccessToken w)).
Proof.
  unfold getValidAccessToken, refresh_token, bind, acquire_token.
  destruct (tokenCache w) as [tc | ].
  - destruct (_ >? _); [ | tally].
    destruct (auth_getAccessToken w (tick w)); tally.
  - destruct (auth_getAccessToken w (tick w)); tally.
Qed.

Lemma select_endpoint_effects (prompt : string) (w : World) :
  effects_within 0 1 0 0 w (snd (select_endpoint prompt w)).
Proof.
  unfold select_endpoint.
  destruct (JS.truthy (GOOGLE_CLOUD_VERTEX_AI_API_KEY w)); [tally | ].
  unfold bind. pose proof (getValidAccessToken_effects w) as Htoken.
  destruct (getValidAccessToken w) as [[tok | msg] w1]; exact Htoken.
Qed.

Lemma read_response_effects_within (response : Response) (w : World) :
  effects_within 0 0 0 0 w (snd (read_response response w)).
Proof.
  unfold read_response.
  destruct (res_status response =? 429); [tally | ].
  destruct (negb (res_ok response)); [tally | ].
  destruct (res_text response); tally.
Qed.

Lemma queryGeminiAPI_effects (prompt : string) (w : World) :
  effects_within 1 1 0 0 w (snd (queryGeminiAPI prompt w)).
Proof.
  pose proof (select_endpoint_effects prompt w) as Hsel.
  destruct (select_endpoint prompt w) as [[req | msg] w1] eqn:Hrun; cbn [snd] in Hsel.
  - rewrite (queryGeminiAPI_after_selection prompt w w1 req Hrun).
    destruct (fetch_backend w1 (tick w1) req) as [response | msg].
    + pose proof (read_response_effects_within response (record (EvFetch req) w1)) as Hread.
      revert Hsel Hread. unfold effects_within, count. cbn [trace record List.filter
        List.length is_fetch is_acquisition is_page_query is_write]. lia.
    + revert Hsel. tally.
  - unfold queryGeminiAPI, bind. rewrite Hrun. revert Hsel. tally.
Qed.

Lemma ask_model_effects (page : Page) (description : string) (w : World) :
  effects_within 1 1 0 0 w (snd (ask_model page description w)).
Proof.
  destruct (page_content page (tick w)) as [html | msg] eqn:Hhtml.
  - rewrite (ask_model_unfold page description w html Hhtml).
    pose proof (queryGeminiAPI_effects (build_prompt description html)
                  (record EvPageContent w)) as Hq.
    destruct (queryGeminiAPI _ _) as [[response | msg] w1];
      revert Hq; tally.
  - rewrite (ask_model_content_fails page description w msg Hhtml). tally.
Qed.

Lemma candidate_effects (page : Page) (description : string)
    (cache : gmap string (gmap string string)) (retries : Z) (w : World) :
  effects_within 1 1 0 0 w (snd (candidate page description cache retries w)).
Proof.
  unfold candidate. destruct (_ && _); [tally | apply ask_model_effects].
Qed.

Lemma validate_effects (page : Page) (description : string)
    (cache : gmap string (gmap string string)) (member : bool) (selector : string)
    (w : World) :
  effects_within 0 0 1
    (match fst (validate page description cache member selector w) with
     | Ok NextAttempt => 0
     | _ => 1
     end) w (snd (validate page description cache member selector w)).
Proof.
  unfold validate. destruct (JS.truthy (Some selector)); [ | tally].
  unfold bind, element_exists, saveCache.
  destruct (page_dollar page (tick w) selector) as [[ | ] | msg]; [ | tally | tally].
  cbn [tick record trace List.length fs_writeFile].
  destruct (fs_writeFile w (S (List.length (trace w)))); tally.
Qed.

Lemma attempt_effects (page : Page) (description : string)
    (cache : gmap string (gmap string string)) (retries : Z) (w : World) :
  effects_within 1 1 1
    (match fst (attempt page description cache retries w) with
     | Ok NextAttempt => 0
     | _ => 1
     end) w (snd (attempt page description cache retries w)).
Proof.
  rewrite attempt_unfold.
  pose proof (candidate_effects page description cache retries w) as Hcand.
  destruct (candidate page description cache retries w)
    as [[[selector | ] | msg] w1]; cbn [snd] in Hcand.
  - pose proof (validate_effects page description cache
                  (member_candidate page description cache retries) selector w1) as Hval.
    revert Hcand Hval. unfold effects_within. lia.
  - revert Hcand. unfold effects_within. cbn [fst snd]. lia.
  - revert Hcand. unfold effects_within. cbn [fst snd]. lia.
Qed.

Lemma attempts_effects (page : Page) (description : string)
    (cache : gmap string (gmap string string)) (n : nat) (retries : Z) (w : World) :
  effects_within n n n 1 w (snd (attempts n page description cache retries w)).
Proof.
  revert retries w. induction n as [ | n IH]; intros retries w.
  - rewrite attempts_zero. unfold effects_within. cbn [snd]. lia.
  - pose proof (attempt_effects page description cache retries w) as Hstep.
    destruct (attempt page description cache retries w) as [[[selector | ] | msg] w1]
      eqn:Hrun; cbn [fst snd] in Hstep.
    + rewrite (attempts_return _ _ _ _ _ _ _ _ Hrun).
      revert Hstep. unfold effects_within. cbn [snd]. lia.
    + rewrite (attempts_next _ _ _ _ _ _ _ Hrun).
      pose proof (IH (retries + 1) w1) as Hrest.
      revert Hstep Hrest. unfold effects_within. lia.
    + rewrite (attempts_throw _ _ _ _ _ _ _ _ Hrun).
      revert Hstep. unfold effects_within. cbn [snd]. lia.
Qed.

(** X10. A resolution call whose [retries] option is absent or an integer
    sends at most [maxRetries] requests to the model (none when [maxRetries]
    is negative), acquires at most that many tokens, asks the page for an
    element at most that many times and writes the cache file at most
    once. *)
Theorem resolution_cost_is_bounded
    (page : Page) (description : string) (options : AILocatorOptions) (w : World) :
  let budget := Z.to_nat (maxRetries options) in
  let w' := snd (getAiSelector page description options w) in
  (count is_fetch w' <= count is_fetch w + budget)%nat /\
  (count is_acquisition w' <= count is_acquisition w + budget)%nat /\
  (count is_page_query w' <= count is_page_query w + budget)%nat /\
  (count is_write w' <= count is_write w + 1)%nat.
Proof.
  intros budget w'. subst w'. rewrite getAiSelector_unfold.
  apply attempts_effects.
Qed.

(** X11. With a budget of one attempt, a cached selector that no longer
    matches makes the resolution fail with the descriptive error after the
    one page query: the model is never asked and the stale entry stays in
    the file. *)
Theorem stale_cache_with_one_attempt_fails
    (page : Page) (description : string) (options : AILocatorOptions)
    (w : World) (stale : string) :
  maxRetries options = 1 ->
  cached_selector (stored_cache w) (page_url page) description = Some stale ->
  stale <> "" ->
  page_dollar page (tick w) stale = Ok false ->
  getAiSelector page description options w
  = (Throw (exhausted_message description),
     record (EvPageQuery stale (Ok false)) w).
Proof.
  intros Hone Hcached Hstale Hgone.
  rewrite getAiSelector_unfold, Hone.
  change (Z.to_nat 1) with 1%nat.
  rewrite (attempts_next page description (stored_cache w) 0 0 w
             (record (EvPageQuery stale (Ok false)) w)).
  - apply attempts_zero.
  - rewrite attempt_unfold.
    rewrite (candidate_from_cache page description _ stale w Hcached Hstale).
    rewrite (validate_no_match _ _ _ _ _ _ Hgone), (truthy_some stale Hstale).
    reflexivity.
Qed.

Lemma stale_cache_witness :
  let w := Scenarios.with_cached ".old" (Scenarios.always 200 "OK" None (Ok "h1.title")) in
  getAiSelector Examples.phil_qa "page header text" (mkOptions None (Some 1) None) w
  = (Throw "Failed to generate a valid selector for description: page header text",
     record (EvPageQuery ".old" (Ok false)) w).
Proof.
  intros w.
  apply (stale_cache_with_one_attempt_fails Examples.phil_qa "page header text"
           (mkOptions None (Some 1) None) w ".old").
  - reflexivity.
  - vm_compute; reflexivity.
  - discriminate.
  - reflexivity.
Defined.

(** ** What a resolution leaves alone *)

Lemma kept_trans (w w1 w2 : World) :
  document w1 = document w /\ same_surroundings w w1 ->
  document w2 = document w1 /\ same_surroundings w1 w2 ->
  document w2 = document w /\ same_surroundings w w2.
Proof.
  unfold same_surroundings. intros [Hd1 H1] [Hd2 H2].
  decompose [and] H1. decompose [and] H2.
  repeat split; congruence.
Qed.

Ltac kept := unfold same_surroundings; cbn; repeat split; reflexivity.

Lemma getValidAccessToken_kept (w : World) :
  document (snd (getValidAccessToken w)) = document w /\
  same_surroundings w (snd (getValidAccessToken w)).
Proof.
  unfold getValidAccessToken, refresh_token, bind, acquire_token.
  destruct (tokenCache w) as [tc | ].
  - destruct (_ >? _); [ | kept].
    destruct (auth_getAccessToken w (tick w)); kept.
  - destruct (auth_getAccessToken w (tick w)); kept.
Qed.

Lemma select_endpoint_kept (prompt : string) (w : World) :
  document (snd (select_endpoint prompt w)) = document w /\
  same_surroundings w (snd (select_endpoint prompt w)).
Proof.
  unfold select_endpoint.
  destruct (JS.truthy (GOOGLE_CLOUD_VERTEX_AI_API_KEY w)); [kept | ].
  unfold bind. pose proof (getValidAccessToken_kept w) as Htoken.
  destruct (getValidAccessToken w) as [[tok | msg] w1]; exact Htoken.
Qed.

Lemma read_response_kept (response : Response) (w : World) :
  document (snd (read_response response w)) = document w /\
  same_surroundings w (snd (read_response response w)).
Proof.
  unfold read_response.
  destruct (res_status response =? 429); [kept | ].
  destruct (negb (res_ok response)); [kept | ].
  destruct (res_text response); kept.
Qed.

Lemma queryGeminiAPI_kept (prompt : string) (w : World) :
  document (snd (queryGeminiAPI prompt w)) = document w /\
  same_surroundings w (snd (queryGeminiAPI prompt w)).
Proof.
  pose proof (select_endpoint_kept prompt w) as Hsel.
  destruct (select_endpoint prompt w) as [[req | msg] w1] eqn:Hrun; cbn [snd] in Hsel.
  - rewrite (queryGeminiAPI_after_selection prompt w w1 req Hrun).
    apply (kept_trans w w1 _ Hsel).
    destruct (fetch_backend w1 (tick w1) req) as [response | msg].
    + apply (kept_trans w1 (record (EvFetch req) w1)); [kept | apply read_response_kept].
    + kept.
  - unfold queryGeminiAPI, bind. rewrite Hrun. exact Hsel.
Qed.

Lemma ask_model_kept (page : Page) (description : string) (w : World) :
  document (snd (ask_model page description w)) = document w /\
  same_surroundings w (snd (ask_model page description w)).
Proof.
  destruct (page_content page (tick w)) as [html | msg] eqn:Hhtml.
  - rewrite (ask_model_unfold page description w html Hhtml).
    pose proof (queryGeminiAPI_kept (build_prompt description html)
                  (record EvPageContent w)) as Hq.
    apply (kept_trans w (record EvPageContent w)); [kept | ].
    destruct (queryGeminiAPI _ _) as [[response | msg] w1]; exact Hq.
  - rewrite (ask_model_content_fails page description w msg Hhtml). kept.
Qed.

Lemma validate_kept (page : Page) (description : string)
    (cache : gmap string (gmap string string)) (member : bool) (selector : string)
    (w : World) :
  document (snd (validate page description cache member selector w)) = document w /\
  same_surroundings w (snd (validate page description cache member selector w)).
Proof.
  unfold validate. destruct (JS.truthy (Some selector)); [ | kept].
  unfold bind, element_exists, saveCache.
  destruct (page_dollar page (tick w) selector) as [[ | ] | msg]; [ | kept | kept].
  cbn [tick record trace List.length fs_writeFile].
  destruct (fs_writeFile w (S (List.length (trace w)))); kept.
Qed.

Lemma attempt_kept (page : Page) (description : string)
    (cache : gmap string (gmap string string)) (retries : Z) (w : World) :
  document (snd (attempt page description cache retries w)) = document w /\
  same_surroundings w (snd (attempt page description cache retries w)).
Proof.
  rewrite attempt_unfold.
  assert (Hcand : document (snd (candidate page description cache retries w)) = document w /\
                  same_surroundings w (snd (candidate page description cache retries w))).
  { unfold candidate. destruct (_ && _); [kept | apply ask_model_kept]. }
  destruct (candidate page description cache retries w)
    as [[[selector | ] | msg] w1]; cbn [snd] in Hcand.
  - apply (kept_trans w w1 _ Hcand), validate_kept.
  - exact Hcand.
  - exact Hcand.
Qed.

Lemma attempts_kept (page : Page) (description : string)
    (cache : gmap string (gmap string string)) (n : nat) (retries : Z) (w : World) :
  document (snd (attempts n page description cache retries w)) = document w /\
  same_surroundings w (snd (attempts n page description cache retries w)).
Proof.
  revert retries w. induction n as [ | n IH]; intros retries w.
  - rewrite attempts_zero. kept.
  - pose proof (attempt_kept page description cache retries w) as Hstep.
    destruct (attempt page description cache retries w) as [[[selector | ] | msg] w1]
      eqn:Hrun; cbn [snd] in Hstep.
    + rewrite (attempts_return _ _ _ _ _ _ _ _ Hrun). exact Hstep.
    + rewrite (attempts_next _ _ _ _ _ _ _ Hrun).
      apply (kept_trans w w1 _ Hstep), IH.
    + rewrite (attempts_throw _ _ _ _ _ _ _ _ Hrun). exact Hstep.
Qed.


(** X12. Whatever its outcome, a resolution call leaves the document of
    the page, the four environment variables and its collaborators as they
    were: it only reads the page, and it never assigns [process.env]. *)
Theorem resolution_leaves_page_and_environment
    (page : Page) (description : string) (options : AILocatorOptions) (w : World) :
  document (snd (getAiSelector page description options w)) = document w /\
  same_surroundings w (snd (getAiSelector page description options w)).
Proof. rewrite getAiSelector_unfold. apply attempts_kept. Qed.


(** ** Selector Resolver: credentials that cannot be had *)

Section NoCredentials.

Variable page : Page.
Variable description : string.
Variable cache : gmap string (gmap string string).

Hypothesis Hpage : forall n, exists html, page_content page n = Ok html.
Hypothesis Hmiss :
  JS.truthy (cached_selector cache (page_url page) description) = false.

Lemma attempt_without_credentials (retries : Z) (w : World) :
  locked_out w ->
  attempt page description cache retries w
  = (Ok NextAttempt, record EvAcquireToken (record EvPageContent w)).
Proof.
  intros [Hkey [Htoken Hauth]].
  destruct (Hpage (tick w)) as [html Hhtml].
  destruct (Hauth (tick (record EvPageContent w))) as [msg Hmsg].
  rewrite attempt_unfold, candidate_from_model by (rewrite Hmiss; reflexivity).
  rewrite (ask_model_unfold page description w html Hhtml).
  assert (Hquery : queryGeminiAPI (build_prompt description html) (record EvPageContent w)
                   = (Throw msg, record EvAcquireToken (record EvPageContent w))).
  { unfold queryGeminiAPI, bind at 1. unfold select_endpoint.
    change (GOOGLE_CLOUD_VERTEX_AI_API_KEY (record EvPageContent w))
      with (GOOGLE_CLOUD_VERTEX_AI_API_KEY w).
    rewrite Hkey. unfold bind at 1.
    unfold getValidAccessToken.
    change (tokenCache (record EvPageContent w)) with (tokenCache w).
    rewrite Htoken. unfold refresh_token, bind, acquire_token.
    change (auth_getAccessToken (record EvPageContent w))
      with (auth_getAccessToken w) in *.
    rewrite Hmsg. reflexivity. }
  rewrite Hquery. reflexivity.
Qed.

Lemma attempts_without_credentials (n : nat) (retries : Z) (w : World) :
  locked_out w ->
  let r := attempts n page description cache retries w in
  fst r = Throw (exhausted_message description) /\
  count is_fetch (snd r) = count is_fetch w /\
  count is_acquisition (snd r) = (count is_acquisition w + n)%nat /\
  cache_file (snd r) = cache_file w.
Proof.
  revert retries w. induction n as [ | n IH]; intros retries w Hlocked.
  - cbn. repeat split. lia.
  - cbn zeta.
    rewrite (attempts_next page description cache n retries w _
               (attempt_without_credentials retries w Hlocked)).
    destruct (IH (retries + 1) (record EvAcquireToken (record EvPageContent w)))
      as [Hres [Hfetch [Hacq Hfile]]].
    { destruct Hlocked as [Hkey [Htoken Hauth]]. repeat split; assumption. }
    split; [exact Hres | ]. split; [ | split].
    + rewrite Hfetch. reflexivity.
    + rewrite Hacq. unfold count. cbn. lia.
    + rewrite Hfile. reflexivity.
Qed.

End NoCredentials.

(** X14. Without an API key, without a cached token and without
    credentials for the identity backend (every acquisition is rejected), on
    a page whose [content()] resolves, a resolution for which the cache
    lookup gives nothing, or the empty string, ends with the descriptive
    "Failed to generate a valid selector" error after the whole budget: the
    credential error never reaches the caller, each attempt asks the
    identity backend once, no request is sent to the model and the cache
    file is not touched. *)
Theorem missing_credentials_surface_as_selector_failure
    (page : Page) (description : string) (options : AILocatorOptions) (w : World) :
  (GOOGLE_CLOUD_VERTEX_AI_API_KEY w = None \/
   GOOGLE_CLOUD_VERTEX_AI_API_KEY w = Some "") ->
  tokenCache w = None ->
  (forall n, exists msg, auth_getAccessToken w n = Throw msg) ->
  (forall n, exists html, page_content page n = Ok html) ->
  JS.truthy (cached_selector (stored_cache w) (page_url page) description) = false ->
  let r := getAiSelector page description options w in
  fst r = Throw ("Failed to generate a valid selector for description: " ++ description) /\
  count is_fetch (snd r) = count is_fetch w /\
  count is_acquisition (snd r)
  = (count is_acquisition w + Z.to_nat (maxRetries options))%nat /\
  cache_file (snd r) = cache_file w.
Proof.
  intros Hkey Htoken Hauth Hpage Hmiss r. subst r.
  rewrite getAiSelector_unfold.
  apply (attempts_without_credentials page description (stored_cache w) Hpage Hmiss).
  repeat split; [apply truthy_unset_or_empty; exact Hkey | exact Htoken | exact Hauth].
Qed.

Lemma missing_credentials_witness :
  let w := Scenarios.no_credentials
             (Scenarios.token_mode (Scenarios.always 200 "OK" None (Ok "h1.title"))) in
  let r := getAiSelector Examples.phil_qa "page header text" Examples.no_options w in
  fst r = Throw "Failed to generate a valid selector for description: page header text" /\
  count is_fetch (snd r) = count is_fetch w /\
  count is_acquisition (snd r) = (count is_acquisition w + 3)%nat /\
  cache_file (snd r) = cache_file w.
Proof.
  intros w.
  apply (missing_credentials_surface_as_selector_failure
           Examples.phil_qa "page header text" Examples.no_options w).
  - left. reflexivity.
  - reflexivity.
  - intros n. eexists. reflexivity.
  - intros n. eexists. reflexivity.
  - reflexivity.
Defined.

(** ** The cache file helper and the resolver *)

(** X15. [deleteAiSelectorCache] never rejects and performs no effect of
    the module; it leaves the world as it was or removes the cache file,
    and it removes the file whenever the file is there and [fs.access] and
    [fs.unlink] resolve.  Once the file is gone the next resolution loads
    an empty cache and takes every candidate from the model. *)
Theorem deleteAiSelectorCache_never_rejects
    (access unlink : nat -> Res unit) (w : World) :
  exists w',
    deleteAiSelectorCache access unlink w = (Ok tt, w') /\
    (w' = w \/ w' = set_cache_file FileAbsent w) /\
    (forall u1 u2, access (tick w) = Ok u1 -> unlink (tick w) = Ok u2 ->
                   cache_file w' = FileAbsent) /\
    (cache_file w' = FileAbsent ->
     loadCache w' = (Ok ∅, w') /\
     forall page description retries,
       candidate page description (stored_cache w') retries
       = ask_model page description).
Proof.
  assert (Hgone : forall w' : World,
             cache_file w' = FileAbsent ->
             loadCache w' = (Ok ∅, w') /\
             forall page description retries,
               candidate page description (stored_cache w') retries
               = ask_model page description).
  { intros w' Habsent. split.
    - unfold loadCache. rewrite Habsent. reflexivity.
    - intros page description retries. apply candidate_from_model.
      unfold stored_cache. rewrite Habsent. reflexivity. }
  unfold deleteAiSelectorCache.
  destruct (cache_file w) as [ | | doc] eqn:Hfile.
  - exists w. split; [reflexivity | split; [left; reflexivity | split]].
    + intros u1 u2 _ _. exact Hfile.
    + apply Hgone.
  - destruct (access (tick w)) as [u1 | msg1].
    + destruct (unlink (tick w)) as [u2 | msg2].
      * exists (set_cache_file FileAbsent w).
        split; [reflexivity | split; [right; reflexivity | split]].
        -- intros; reflexivity.
        -- apply Hgone.
      * exists w. split; [reflexivity | split; [left; reflexivity | split]].
        -- intros; discriminate.
        -- apply Hgone.
    + exists w. split; [reflexivity | split; [left; reflexivity | split]].
      * intros; discriminate.
      * apply Hgone.
  - destruct (access (tick w)) as [u1 | msg1].
    + destruct (unlink (tick w)) as [u2 | msg2].
      * exists (set_cache_file FileAbsent w).
        split; [reflexivity | split; [right; reflexivity | split]].
        -- intros; reflexivity.
        -- apply Hgone.
      * exists w. split; [reflexivity | split; [left; reflexivity | split]].
        -- intros; discriminate.
        -- apply Hgone.
    + exists w. split; [reflexivity | split; [left; reflexivity | split]].
      * intros; discriminate.
      * apply Hgone.
Qed.

Lemma deleteAiSelectorCache_witness :
  let w := Scenarios.with_cached "h1.title" (fun _ _ => Throw "offline") in
  exists w',
    deleteAiSelectorCache (fun _ => Ok tt) (fun _ => Ok tt) w = (Ok tt, w') /\
    loadCache w' = (Ok ∅, w') /\
    candidate Examples.phil_qa "page header text" (stored_cache w') 0
    = ask_model Examples.phil_qa "page header text".
Proof.
  intros w.
  destruct (deleteAiSelectorCache_never_rejects (fun _ => Ok tt) (fun _ => Ok tt) w)
    as [w' [Hrun [_ [Hremoved Hnext]]]].
  exists w'. split; [exact Hrun | ].
  destruct (Hnext (Hremoved tt tt eq_refl eq_refl)) as [Hload Hcand].
  split; [exact Hload | apply Hcand].
Defined.

(** ** Page Capability Extension: the locator *)



(** ** Selector Resolver: a blank answer *)

(** X17. When the model answers an accepted request with white space only,
    the trimmed candidate is the empty string, which is not a selector:
    the iteration asks the page nothing, caches nothing and goes on to the
    next iteration with the counter advanced. *)
Theorem blank_answer_is_not_a_candidate
    (page : Page) (description : string) (cache : gmap string (gmap string string))
    (retries : Z) (remaining : nat) (w0 w1 : World) (html : string)
    (req : Request) (response : Response) (raw : string) :
  JS.truthy (cached_selector cache (page_url page) description) && (retries =? 0) = false ->
  page_content page (tick w0) = Ok html ->
  select_endpoint (build_prompt description html) (record EvPageContent w0) = (Ok req, w1) ->
  fetch_backend w1 (tick w1) req = Ok response ->
  200 <= res_status response <= 299 ->
  res_text response = Ok raw ->
  all_spaces raw = true ->
  attempts (S remaining) page description cache retries w0
  = attempts remaining page description cache (retries + 1) (record (EvFetch req) w1).
Proof.
  intros Hguard Hhtml Hsel Hfetch Hstatus Hraw Hblank.
  apply attempts_next.
  rewrite attempt_unfold, (candidate_from_model _ _ _ _ Hguard).
  rewrite (ask_model_unfold page description w0 html Hhtml).
  rewrite (queryGeminiAPI_after_selection _ _ _ _ Hsel), Hfetch.
  unfold read_response.
  destruct (Z.eqb_spec (res_status response) 429) as [H429 | _]; [lia | ].
  assert (Hok : res_ok response = true).
  { unfold res_ok. apply andb_true_intro. split; lia. }
  rewrite Hok, Hraw, (trim_all_spaces raw Hblank). reflexivity.
Qed.

Lemma blank_answer_witness :
  let blank := String (ascii_of_nat 32) (String (ascii_of_nat 10) EmptyString) in
  let w0 := Scenarios.key_mode (Scenarios.always 200 "OK" None (Ok blank)) in
  let prompt := build_prompt "page header text" "<html>...</html>" in
  let req := mkRequest
               "https://generativelanguage.googleapis.com/v1beta/models/gemini-pro:generateContent?key=AIza-key"
               None prompt in
  attempts 3 Examples.phil_qa "page header text" ∅ 0 w0
  = attempts 2 Examples.phil_qa "page header text" ∅ (0 + 1)
      (record (EvFetch req) (record EvPageContent w0)).
Proof.
  intros blank w0 prompt req.
  apply (blank_answer_is_not_a_candidate Examples.phil_qa "page header text" ∅ 0 2
           w0 (record EvPageContent w0) "<html>...</html>" req
           (mkResponse 200 "OK" None (Ok blank)) blank).
  - reflexivity.
  - reflexivity.
  - vm_compute; reflexivity.
  - reflexivity.
  - cbn. lia.
  - reflexivity.
  - reflexivity.
Defined.

(** ** Selector Resolver: key mode *)

Section KeyMode.

Variable page : Page.
Variable description : string.
Variable cache : gmap string (gmap string string).

Lemma queryGeminiAPI_with_key (prompt : string) (w : World) :
  JS.truthy (GOOGLE_CLOUD_VERTEX_AI_API_KEY w) = true ->
  tokenCache (snd (queryGeminiAPI prompt w)) = tokenCache w /\
  count is_acquisition (snd (queryGeminiAPI prompt w)) = count is_acquisition w.
Proof.
  intros Hkey.
  assert (Hsel : select_endpoint prompt w
                 = (Ok (mkRequest (key_endpoint (GOOGLE_CLOUD_VERTEX_AI_MODEL w)
                                     (GOOGLE_CLOUD_VERTEX_AI_API_KEY w)) None prompt), w)).
  { unfold select_endpoint. rewrite Hkey. reflexivity. }
  rewrite (queryGeminiAPI_after_selection prompt w w _ Hsel).
  destruct (fetch_backend w (tick w) _) as [response | msg]; [ | split; reflexivity].
  unfold read_response.
  destruct (res_status response =? 429); [split; reflexivity | ].
  destruct (negb (res_ok response)); [split; reflexivity | ].
  destruct (res_text response); split; reflexivity.
Qed.

Lemma attempt_with_key (retries : Z) (w : World) :
  JS.truthy (GOOGLE_CLOUD_VERTEX_AI_API_KEY w) = true ->
  tokenCache (snd (attempt page description cache retries w)) = tokenCache w /\
  count is_acquisition (snd (attempt page description cache retries w))
  = count is_acquisition w.
Proof.
  intros Hkey. rewrite attempt_unfold.
  assert (Hcand : tokenCache (snd (candidate page description cache retries w))
                  = tokenCache w /\
                  count is_acquisition (snd (candidate page description cache retries w))
                  = count is_acquisition w).
  { unfold candidate. destruct (_ && _); [split; reflexivity | ].
    destruct (page_content page (tick w)) as [html | msg] eqn:Hhtml.
    - rewrite (ask_model_unfold page description w html Hhtml).
      pose proof (queryGeminiAPI_with_key (build_prompt description html)
                    (record EvPageContent w) Hkey) as Hq.
      destruct (queryGeminiAPI _ _) as [[response | msg] w1]; exact Hq.
    - rewrite (ask_model_content_fails page description w msg Hhtml).
      split; reflexivity. }
  destruct (candidate page description cache retries w)
    as [[[selector | ] | msg] w1]; cbn [snd] in Hcand; try exact Hcand.
  destruct Hcand as [<- <-].
  unfold validate. destruct (JS.truthy (Some selector)); [ | split; reflexivity].
  unfold bind, element_exists, saveCache.
  destruct (page_dollar page (tick w1) selector) as [[ | ] | msg];
    [ | split; reflexivity | split; reflexivity].
  cbn [tick record trace List.length fs_writeFile].
  destruct (fs_writeFile w1 (S (List.length (trace w1)))); split; reflexivity.
Qed.

Lemma attempts_with_key (n : nat) (retries : Z) (w : World) :
  JS.truthy (GOOGLE_CLOUD_VERTEX_AI_API_KEY w) = true ->
  tokenCache (snd (attempts n page description cache retries w)) = tokenCache w /\
  count is_acquisition (snd (attempts n page description cache retries w))
  = count is_acquisition w.
Proof.
  revert retries w. induction n as [ | n IH]; intros retries w Hkey.
  - rewrite attempts_zero. split; reflexivity.
  - pose proof (attempt_with_key retries w Hkey) as Hstep.
    pose proof (attempt_kept page description cache retries w) as [_ Hsame].
    destruct (attempt page description cache retries w) as [[[selector | ] | msg] w1]
      eqn:Hrun; cbn [snd] in Hstep, Hsame.
    + rewrite (attempts_return _ _ _ _ _ _ _ _ Hrun). exact Hstep.
    + rewrite (attempts_next _ _ _ _ _ _ _ Hrun).
      destruct Hstep as [<- <-]. apply IH.
      destruct Hsame as [_ [_ [_ [-> _]]]]. exact Hkey.
    + rewrite (attempts_throw _ _ _ _ _ _ _ _ Hrun). exact Hstep.
Qed.

End KeyMode.

(** X18. With a non-empty API key a whole resolution, however many
    attempts it makes and however it ends, never asks the identity backend
    for a token and leaves the token cache as it was. *)
Theorem key_mode_resolution_needs_no_token
    (page : Page) (description : string) (options : AILocatorOptions)
    (w : World) (key : string) :
  GOOGLE_CLOUD_VERTEX_AI_API_KEY w = Some key -> key <> "" ->
  tokenCache (snd (getAiSelector page description options w)) = tokenCache w /\
  count is_acquisition (snd (getAiSelector page description options w))
  = count is_acquisition w.
Proof.
  intros Hset Hkey. rewrite getAiSelector_unfold.
  apply attempts_with_key. rewrite Hset. now apply truthy_some.
Qed.

Lemma key_mode_witness :
  let w := Examples.world (Some "AIza-key") (Some (mkTokenCache "ya29.old" 100))
             FileAbsent Examples.moody_backend in
  tokenCache (snd (getAiSelector Examples.phil_qa "page header text"
                     (mkOptions None (Some 4) None) w))
  = Some (mkTokenCache "ya29.old" 100) /\
  count is_acquisition (snd (getAiSelector Examples.phil_qa "page header text"
                               (mkOptions None (Some 4) None) w))
  = count is_acquisition w.
Proof.
  intros w.
  apply (key_mode_resolution_needs_no_token Examples.phil_qa "page header text"
           (mkOptions None (Some 4) None) w "AIza-key").
  - reflexivity.
  - discriminate.
Defined.
